(** * OpenStack load-balancer task, volume operations and API target of kops

    A shallow embedding of

    - [openstacktasks.LB] (the load-balancer task: [GetDependencies], [Find],
      [CheckChanges], [RenderOpenstack]),
    - the retry-wrapped volume operations of [openstackCloud]
      ([ListVolumes], [CreateVolume], [AttachVolume], [SetVolumeTags]) with the
      two backoff policies [readBackoff] and [writeBackoff],
    - [OpenstackAPITarget.GetIDForServerGroupName].

    Go pointers are [option]s ([nil] is [None]), a dereference of [nil] is the
    outcome [Panicked].  The remote provider is an oracle that answers each
    request as a function of the requests made so far; every request is
    appended to a log, so that "no provider call" is "the log is unchanged". *)

From Stdlib Require Import QArith.
From stdpp Require Import gmap strings list fin_maps.

Close Scope Q_scope.

(** ** Data of the provider's client library (gophercloud) *)

Module subnets.
Record Subnet := { ID : string; Name : string; CIDR : string }.
Record ListOpts := { lo_Name : string }.
End subnets.

Module loadbalancers.
Record LoadBalancer := {
  ID : string;
  Name : string;
  VipSubnetID : string;
  VipPortID : string;
  VipAddress : string
}.
Record CreateOpts := { co_Name : string; co_VipSubnetID : string }.
End loadbalancers.

Module listeners.
Record Listener := { ID : string; Name : string }.
End listeners.

Module servergroups.
Record ServerGroup := { ID : string; Name : string }.
End servergroups.

Module cinder.
Record Volume := {
  ID : string;
  Name : string;
  Size : Z;
  Metadata : gmap string string
}.
Record ListOpts := { lo_Name : string; lo_Status : string }.
Record CreateOpts := {
  co_Name : string;
  co_Size : Z;
  co_AvailabilityZone : string;
  co_Metadata : gmap string string
}.
Record UpdateOpts := { uo_Metadata : gmap string string }.
End cinder.

Module volumeattach.
Record VolumeAttachment := {
  ID : string;
  Device : string;
  VolumeID : string;
  ServerID : string
}.
Record CreateOpts := { co_Device : string; co_VolumeID : string }.
End volumeattach.

(** ** Errors *)

(** Modelled from the spec: [fi.RequiredField] and [fi.CannotChangeField]
    (package [fi], not among the embedded sources) are the two fatal errors of
    section 7 that carry the name of a field.  Of the other constructors,
    [ErrWaitTimeout] is the sentinel [wait.ErrWaitTimeout], [ErrDefault404] is
    the client library's "not found", [ProviderError] stands for any other
    error of the client library, and [Errorf] is [fmt.Errorf] applied to a
    format and its arguments. *)
Inductive error : Type :=
| ErrWaitTimeout
| ErrDefault404
| ProviderError (status : Z) (msg : string)
| RequiredField (key : string)
| CannotChangeField (key : string)
| Errorf (format : string) (args : fmtArgs)
with fmtArgs : Type :=
| NoArgs
| ArgString (s : string) (rest : fmtArgs)
| ArgInt (n : Z) (rest : fmtArgs)
| ArgErr (e : error) (rest : fmtArgs)
| ArgVolumeListOpts (o : cinder.ListOpts) (rest : fmtArgs)
| ArgVolumeCreateOpts (o : cinder.CreateOpts) (rest : fmtArgs).

(** ** Provider calls and the effect monad *)

Inductive Call : Type :=
| CallLoadBalancersGet (id : string)
| CallSubnetsGet (id : string)
| CallListSubnets (opt : subnets.ListOpts)
| CallCreateLB (opt : loadbalancers.CreateOpts)
| CallListServerGroups
| CallVolumesList (opt : cinder.ListOpts)
| CallVolumesCreate (opt : cinder.CreateOpts)
| CallVolumesUpdate (id : string) (opt : cinder.UpdateOpts)
| CallVolumeAttachCreate (serverID : string) (opt : volumeattach.CreateOpts).

Abbreviation Log := (list Call).

Inductive outcome (A : Type) : Type :=
| Returned (a : A)
| Panicked.
Arguments Returned {A} a.
Arguments Panicked {A}.

(** A computation reads the log of the calls made so far and extends it. *)
Definition M (A : Type) : Type := Log -> outcome A * Log.

Definition ret {A} (a : A) : M A := fun log => (Returned a, log).

Definition bind {A B} (m : M A) (k : A -> M B) : M B :=
  fun log =>
    match m log with
    | (Returned a, log') => k a log'
    | (Panicked, log') => (Panicked, log')
    end.

Definition panic {A} : M A := fun log => (Panicked, log).

(** [call c answer] issues the request [c]: the oracle [answer] sees the log
    as it was before the request. *)
Definition call {A} (c : Call) (answer : Log -> A) : M A :=
  fun log => (Returned (answer log), log ++ [c]).

(** The two operations as instances of stdpp's monad classes, for the
    notation [x ← m; k]. *)
#[global] Instance M_ret : MRet M := @ret.
#[global] Instance M_bind : MBind M := fun A B k m => bind m k.

(** The calls a computation adds to the log. *)
Definition calls_of {A} (m : M A) (log : Log) : Log := drop (length log) (snd (m log)).

(** ** Handles on the provider *)

Module pagination.
(** The pages of a volume listing; [cinder.ExtractVolumes] reads the volumes
    out of them, or fails. *)
Record Page := { ExtractVolumes : list cinder.Volume + error }.
End pagination.

Module gophercloud.
(** A service client of the client library.  Each request is answered by
    the remote service as a function of the calls made before it; a Go
    result [(v, err)] of which only one side is used is a sum. *)
Record ServiceClient := {
  loadbalancers_Get : Log -> string -> loadbalancers.LoadBalancer + error;
  subnets_Get : Log -> string -> subnets.Subnet + error;
  volumes_List : Log -> cinder.ListOpts -> pagination.Page + error;
  volumes_Create : Log -> cinder.CreateOpts -> cinder.Volume + error;
  volumes_Update : Log -> string -> cinder.UpdateOpts -> cinder.Volume + error;
  volumeattach_Create :
    Log -> string -> volumeattach.CreateOpts -> volumeattach.VolumeAttachment + error
}.
End gophercloud.

(** ** Packages [wait] and [time] *)

Module wait.
(** [wait.Backoff]: the duration is in nanoseconds, as [time.Duration]. *)
Record Backoff := {
  Duration : Z;
  Factor : Q;
  Jitter : Q;
  Steps : Z
}.
End wait.

Module time.
Definition Second : Z := 1000000000.
End time.

(** ** Package [fi]: what the task code uses of it *)

Module fi.

(** Modelled from the spec: the type [fi.Lifecycle] (package [fi], not among
    the embedded sources); section 3 gives the lifecycle policy tag as one of
    [ExistsAndValidates], [ExistsAndWarnIfChanges], [Sync]. *)
Inductive Lifecycle : Type :=
| LifecycleExistsAndValidates
| LifecycleExistsAndWarnIfChanges
| LifecycleSync.

(** Modelled from the spec: [fi.String] and [fi.StringValue] (package [fi],
    not among the embedded sources), the two directions of section 9's
    optional field as a nullable pointer: [String] takes the address of a
    value, [StringValue] reads through the pointer, with the empty string for
    [nil]. *)
Definition String (s : string) : option string := Some s.
Definition StringValue (p : option string) : string :=
  match p with
  | Some s => s
  | None => EmptyString
  end.

(** The context of a run.  Its field [Cloud] has the interface type
    [fi.Cloud]; [C] is the dynamic type of the value it holds. *)
Record Context (C : Type) := { Cloud : C }.
Arguments Cloud {C} _.

End fi.

(** ** Package [openstack] *)

Module openstack.

(** The methods of the interface [OpenstackCloud] that the load-balancer
    task and the API target call.  [ListServerGroups] keeps both halves of
    its Go result, since its caller drops the error and reads the list. *)
Record OpenstackCloud := {
  LoadBalancerClient : gophercloud.ServiceClient;
  NetworkingClient : gophercloud.ServiceClient;
  ListSubnets : Log -> subnets.ListOpts -> list subnets.Subnet + error;
  CreateLB : Log -> loadbalancers.CreateOpts -> loadbalancers.LoadBalancer + error;
  ListServerGroups : Log -> list servergroups.ServerGroup * option error
}.

Record OpenstackAPITarget := { Cloud : OpenstackCloud }.

(** The struct [openstackCloud]. *)
Record openstackCloud := {
  cinderClient : gophercloud.ServiceClient;
  neutronClient : gophercloud.ServiceClient;
  novaClient : gophercloud.ServiceClient;
  dnsClient : option gophercloud.ServiceClient;
  lbClient : gophercloud.ServiceClient;
  tags : gmap string string;
  region : string
}.





(** ** Backoff policies and the retry-wrapped volume operations *)

(** readBackoff is the backoff strategy for openstack read retries. *)
Definition readBackoff : wait.Backoff :=
  {| wait.Duration := time.Second;
     wait.Factor := 1.5%Q;
     wait.Jitter := 0.1%Q;
     wait.Steps := 4 |}.

(** writeBackoff is the backoff strategy for openstack write retries. *)
Definition writeBackoff : wait.Backoff :=
  {| wait.Duration := time.Second;
     wait.Factor := 1.5%Q;
     wait.Jitter := 0.1%Q;
     wait.Steps := 5 |}.

(** What one attempt of a retried operation reports: [(done, err)]. *)
Abbreviation attempt := (bool * option error)%type.

Section Retry.
(** [vfs.RetryWithBackoff] is not among the embedded sources: the
    operations below are stated for any retry executor.  The operation it
    is given is a closure over the log and over the local variable of the
    caller that the closure assigns; the executor hands back what the
    operation did to them. *)
Variable RetryWithBackoff :
  forall St : Type, wait.Backoff -> (St -> attempt * St) -> St -> attempt * St.

(** The closure of [ListVolumes]. *)
Definition ListVolumes_op (c : openstackCloud) (opt : cinder.ListOpts)
    (st : Log * list cinder.Volume) : attempt * (Log * list cinder.Volume) :=
  let '(log, volumes) := st in
  let log' := log ++ [CallVolumesList opt] in
  match gophercloud.volumes_List (cinderClient c) log opt with
  | inr err =>
      ((false, Some (Errorf "error listing volumes %v: %v"
                       (ArgVolumeListOpts opt (ArgErr err NoArgs)))),
       (log', volumes))
  | inl allPages =>
      match pagination.ExtractVolumes allPages with
      | inr err =>
          ((false, Some (Errorf "error extracting volumes from pages: %v"
                           (ArgErr err NoArgs))),
           (log', volumes))
      | inl vs => ((true, None), (log', vs))
      end
  end.

Definition ListVolumes (c : openstackCloud) (opt : cinder.ListOpts)
    : M (list cinder.Volume * option error) :=
  fun log =>
    let '((done, err), (log', volumes)) :=
      RetryWithBackoff _ readBackoff (ListVolumes_op c opt) (log, []) in
    match err with
    | Some err => (Returned (volumes, Some err), log')
    | None =>
        if done then (Returned (volumes, None), log')
        else (Returned (volumes, Some ErrWaitTimeout), log')
    end.

(** The closure of [CreateVolume]. *)
Definition CreateVolume_op (c : openstackCloud) (opt : cinder.CreateOpts)
    (st : Log * option cinder.Volume) : attempt * (Log * option cinder.Volume) :=
  let '(log, volume) := st in
  let log' := log ++ [CallVolumesCreate opt] in
  match gophercloud.volumes_Create (cinderClient c) log opt with
  | inr err =>
      ((false, Some (Errorf "error creating volume %v: %v"
                       (ArgVolumeCreateOpts opt (ArgErr err NoArgs)))),
       (log', volume))
  | inl v => ((true, None), (log', Some v))
  end.

Definition CreateVolume (c : openstackCloud) (opt : cinder.CreateOpts)
    : M (option cinder.Volume * option error) :=
  fun log =>
    let '((done, err), (log', volume)) :=
      RetryWithBackoff _ writeBackoff (CreateVolume_op c opt) (log, None) in
    match err with
    | Some err => (Returned (volume, Some err), log')
    | None =>
        if done then (Returned (volume, None), log')
        else (Returned (volume, Some ErrWaitTimeout), log')
    end.

(** The closure of [AttachVolume]; [attachment] is the named result. *)
Definition AttachVolume_op (c : openstackCloud) (serverID : string)
    (opts : volumeattach.CreateOpts)
    (st : Log * option volumeattach.VolumeAttachment)
    : attempt * (Log * option volumeattach.VolumeAttachment) :=
  let '(log, attachment) := st in
  let log' := log ++ [CallVolumeAttachCreate serverID opts] in
  match gophercloud.volumeattach_Create (novaClient c) log serverID opts with
  | inr err =>
      ((false, Some (Errorf "error attaching volume %s to server %s: %v"
                       (ArgString (volumeattach.co_VolumeID opts)
                          (ArgString serverID (ArgErr err NoArgs))))),
       (log', attachment))
  | inl volumeAttachment => ((true, None), (log', Some volumeAttachment))
  end.

Definition AttachVolume (c : openstackCloud) (serverID : string)
    (opts : volumeattach.CreateOpts)
    : M (option volumeattach.VolumeAttachment * option error) :=
  fun log =>
    let '((done, err), (log', attachment)) :=
      RetryWithBackoff _ writeBackoff (AttachVolume_op c serverID opts) (log, None) in
    if negb done then
      let err := match err with
                 | None => Some ErrWaitTimeout
                 | Some _ => err
                 end in
      (Returned (attachment, err), log')
    else (Returned (attachment, err), log').

(** The closure of [SetVolumeTags]; it assigns no variable of the caller. *)
Definition SetVolumeTags_op (c : openstackCloud) (id : string)
    (opt : cinder.UpdateOpts) (log : Log) : attempt * Log :=
  let log' := log ++ [CallVolumesUpdate id opt] in
  match gophercloud.volumes_Update (cinderClient c) log id opt with
  | inr err =>
      ((false, Some (Errorf "error setting tags to cinder volume %q: %v"
                       (ArgString id (ArgErr err NoArgs)))),
       log')
  | inl _ => ((true, None), log')
  end.

Definition SetVolumeTags (c : openstackCloud) (id : string) (tags : gmap string string)
    : M (option error) :=
  if decide (size tags = 0) then mret None
  else if decide (id = "") then
    mret (Some (Errorf "error setting tags to unknown volume" NoArgs))
  else
    fun log =>
      let opt := {| cinder.uo_Metadata := tags |} in
      let '((done, err), log') :=
        RetryWithBackoff _ writeBackoff (SetVolumeTags_op c id opt) log in
      match err with
      | Some err => (Returned (Some err), log')
      | None =>
          if done then (Returned None, log')
          else (Returned (Some ErrWaitTimeout), log')
      end.

End Retry.

(** ** The API target *)

(** The loop of [GetIDForServerGroupName] over the listed groups, with the
    statement after it; [sgName] is dereferenced at each comparison and in
    the final message. *)
Fixpoint GetIDForServerGroupName_range (sgName : option string)
    (serverGroups : list servergroups.ServerGroup) : M (option string * option error) :=
  match serverGroups with
  | serverGroup :: rest =>
      match sgName with
      | None => panic
      | Some name =>
          if decide (servergroups.Name serverGroup = name)
          then mret (fi.String (servergroups.ID serverGroup), None)
          else GetIDForServerGroupName_range sgName rest
      end
  | [] =>
      match sgName with
      | None => panic
      | Some name =>
          mret (None, Some (Errorf "ID not found for Server Group Name %s."
                              (ArgString name NoArgs)))
      end
  end.

Definition GetIDForServerGroupName (t : OpenstackAPITarget) (sgName : option string)
    : M (option string * option error) :=
  '(serverGroups, _) ← call CallListServerGroups (fun log => ListServerGroups (Cloud t) log);
  GetIDForServerGroupName_range sgName serverGroups.

End openstack.

(** ** The load-balancer task *)

Module openstacktasks.

Record LB := {
  ID : option string;
  Name : option string;
  Listener : option listeners.Listener;
  Subnet : option string;
  VipSubnet : option string;
  Lifecycle : option fi.Lifecycle;
  PortID : option string
}.

(** The zero value of the struct: every field [nil]. *)
Definition zeroLB : LB :=
  {| ID := None; Name := None; Listener := None; Subnet := None;
     VipSubnet := None; Lifecycle := None; PortID := None |}.

(** Assignments to one field of the struct. *)
Definition set_ID (v : option string) (e : LB) : LB :=
  {| ID := v; Name := Name e; Listener := Listener e; Subnet := Subnet e;
     VipSubnet := VipSubnet e; Lifecycle := Lifecycle e; PortID := PortID e |}.
Definition set_PortID (v : option string) (e : LB) : LB :=
  {| ID := ID e; Name := Name e; Listener := Listener e; Subnet := Subnet e;
     VipSubnet := VipSubnet e; Lifecycle := Lifecycle e; PortID := v |}.
Definition set_VipSubnet (v : option string) (e : LB) : LB :=
  {| ID := ID e; Name := Name e; Listener := Listener e; Subnet := Subnet e;
     VipSubnet := v; Lifecycle := Lifecycle e; PortID := PortID e |}.

Section Tasks.
(** The sibling task kinds [*Subnet], [*ServerGroup] and [*Instance] are
    declared in other files of the package; [GetDependencies] only looks
    at the dynamic type of a task, so their contents stay abstract. *)
Context {SubnetTask ServerGroupTask InstanceTask OtherTask : Type}.

(** A value of the interface [fi.Task], by dynamic type. *)
Inductive Task : Type :=
| TSubnet (s : SubnetTask)
| TServerGroup (g : ServerGroupTask)
| TInstance (i : InstanceTask)
| TLB (l : LB)
| TOther (o : OtherTask).

(** One turn of the loop of [GetDependencies]: three type assertions,
    each appending the task when it succeeds. *)
Definition GetDependencies_step (deps : list Task) (task : Task) : list Task :=
  let deps := match task with TSubnet _ => deps ++ [task] | _ => deps end in
  let deps := match task with TServerGroup _ => deps ++ [task] | _ => deps end in
  let deps := match task with TInstance _ => deps ++ [task] | _ => deps end in
  deps.

(** The loop over the entries of the map, in the order [entries] in which
    the range statement happens to visit them. *)
Definition GetDependencies_range (e : LB) (entries : list (string * Task)) : list Task :=
  foldl (fun deps kv => GetDependencies_step deps (snd kv)) [] entries.

Definition GetDependencies (e : LB) (tasks : gmap string Task) : list Task :=
  GetDependencies_range e (map_to_list tasks).

(** The dynamic types that the type assertions of [GetDependencies] accept. *)
Definition isDependencyKind (task : Task) : bool :=
  match task with
  | TSubnet _ | TServerGroup _ | TInstance _ => true
  | TLB _ | TOther _ => false
  end.

End Tasks.
Arguments Task : clear implicits.

Definition CompareWithID (s : LB) : option string := ID s.

Definition NewLBTaskFromCloud (cloud : openstack.OpenstackCloud)
    (lifecycle : option fi.Lifecycle) (lb : loadbalancers.LoadBalancer)
    : M (option LB * option error) :=
  let osCloud := cloud in
  r ← call (CallSubnetsGet (loadbalancers.VipSubnetID lb))
        (fun log => gophercloud.subnets_Get (openstack.NetworkingClient osCloud) log
                      (loadbalancers.VipSubnetID lb));
  match r with
  | inr err => mret (None, Some err)
  | inl sub =>
      mret (Some {| ID := fi.String (loadbalancers.ID lb);
                    Name := fi.String (loadbalancers.Name lb);
                    Listener := None;
                    Subnet := fi.String (subnets.Name sub);
                    VipSubnet := None;
                    Lifecycle := lifecycle;
                    PortID := None |}, None)
  end.

Definition Find (s : LB) (context : fi.Context openstack.OpenstackCloud) : M (option LB * option error) :=
  match ID s with
  | None => mret (None, None)
  | Some _ =>
      let cloud := fi.Cloud context in
      r ← call (CallLoadBalancersGet (fi.StringValue (ID s)))
            (fun log => gophercloud.loadbalancers_Get (openstack.LoadBalancerClient cloud) log
                          (fi.StringValue (ID s)));
      match r with
      | inr err => mret (None, Some err)
      | inl lb => NewLBTaskFromCloud cloud (Lifecycle s) lb
      end
  end.

(** [a], [e] and [changes] are pointers; [e] is read only when [a] is
    [nil], [changes] only when it is not. *)
Definition CheckChanges (a e changes : option LB) : M (option error) :=
  match a with
  | None =>
      match e with
      | None => panic
      | Some e =>
          match Name e with
          | None => mret (Some (RequiredField "Name"))
          | Some _ => mret None
          end
      end
  | Some _ =>
      match changes with
      | None => panic
      | Some changes =>
          match ID changes with
          | Some _ => mret (Some (CannotChangeField "ID"))
          | None =>
              match Name changes with
              | Some _ => mret (Some (CannotChangeField "Name"))
              | None => mret None
              end
          end
      end
  end.

(** The result is the returned error together with the task [e] as the
    call leaves it ([e] is the only object written to). *)
Definition RenderOpenstack (t : openstack.OpenstackAPITarget) (a e changes : option LB)
    : M (option error * option LB) :=
  match a with
  | None =>
      match e with
      | None => panic
      | Some ev =>
          let opt := {| subnets.lo_Name := fi.StringValue (Subnet ev) |} in
          r ← call (CallListSubnets opt)
                (fun log => openstack.ListSubnets (openstack.Cloud t) log opt);
          match r with
          | inr err =>
              mret (Some (Errorf "Failed to retrieve subnet `%s` in loadbalancer creation: %v"
                            (ArgString (fi.StringValue (Subnet ev)) (ArgErr err NoArgs))),
                    e)
          | inl [sub] =>
              let lbopts := {| loadbalancers.co_Name := fi.StringValue (Name ev);
                               loadbalancers.co_VipSubnetID := subnets.ID sub |} in
              r ← call (CallCreateLB lbopts)
                    (fun log => openstack.CreateLB (openstack.Cloud t) log lbopts);
              match r with
              | inr err => mret (Some (Errorf "error creating LB: %v" (ArgErr err NoArgs)), e)
              | inl lb =>
                  let ev := set_ID (fi.String (loadbalancers.ID lb)) ev in
                  let ev := set_PortID (fi.String (loadbalancers.VipPortID lb)) ev in
                  let ev := set_VipSubnet (fi.String (loadbalancers.VipSubnetID lb)) ev in
                  mret (None, Some ev)
              end
          | inl subnets =>
              mret (Some (Errorf "Unexpected desired subnets for `%s`.  Expected 1, got %d"
                            (ArgString (fi.StringValue (Subnet ev))
                               (ArgInt (Z.of_nat (length subnets)) NoArgs))),
                    e)
          end
      end
  | Some _ => mret (None, e)
  end.

End openstacktasks.

(** ** [openstackCloud.GetApiIngressStatus] *)

Module floatingips.
Record FloatingIP := {
  ID : string;
  FixedIP : string;
  InstanceID : string;
  IP : string;
  Pool : string
}.
End floatingips.

Module kops.
Record ClusterSpec := { MasterPublicName : string }.
Record Cluster := { Name : string; Spec : ClusterSpec }.
Record ApiIngressStatus := { Hostname : string; IP : string }.
End kops.

Module ingress.
Import openstack.

(** The options of a listing of load balancers; only the name is set. *)
Record ListOpts := { lo_Name : string }.

(** The two requests of [GetApiIngressStatus], with a log of their own. *)
Inductive IngressCall : Type :=
| CallListLBs (opt : ListOpts)
| CallListFloatingIPs.

Section Listing.
(** [ListLBs] and [ListFloatingIPs] are methods of [openstackCloud] written in
    other files of the package: each answers as a function of the requests
    made before it. *)
Variable ListLBs :
  openstackCloud -> list IngressCall -> ListOpts -> list loadbalancers.LoadBalancer + error.
Variable ListFloatingIPs :
  openstackCloud -> list IngressCall -> list floatingips.FloatingIP + error.

(** The inner loop: the floating IPs whose fixed address is the VIP address
    of [lb] are appended to [ingresses]. *)
Definition GetApiIngressStatus_fips (lb : loadbalancers.LoadBalancer)
    (fips : list floatingips.FloatingIP) (ingresses : list kops.ApiIngressStatus)
    : list kops.ApiIngressStatus :=
  foldl (fun ingresses fip =>
           if decide (floatingips.FixedIP fip = loadbalancers.VipAddress lb)
           then ingresses ++ [ {| kops.Hostname := ""; kops.IP := floatingips.IP fip |} ]
           else ingresses)
        ingresses fips.

(** The outer loop, over the load balancers. *)
Definition GetApiIngressStatus_lbs (lbList : list loadbalancers.LoadBalancer)
    (fips : list floatingips.FloatingIP) (ingresses : list kops.ApiIngressStatus)
    : list kops.ApiIngressStatus :=
  foldl (fun ingresses lb => GetApiIngressStatus_fips lb fips ingresses) ingresses lbList.

Definition GetApiIngressStatus (c : openstackCloud) (cluster : option kops.Cluster)
    (log : list IngressCall)
    : outcome (list kops.ApiIngressStatus * option error) * list IngressCall :=
  match cluster with
  | None => (Panicked, log)
  | Some cluster =>
      let ingresses : list kops.ApiIngressStatus := [] in
      if decide (kops.MasterPublicName (kops.Spec cluster) <> "") then
        let opt := {| lo_Name := kops.MasterPublicName (kops.Spec cluster) |} in
        let log1 := log ++ [CallListLBs opt] in
        match ListLBs c log opt with
        | inr err =>
            (Returned (ingresses,
                       Some (Errorf "GetApiIngressStatus: Failed to list openstack loadbalancers: %v"
                               (ArgErr err NoArgs))),
             log1)
        | inl lbList =>
            let log2 := log1 ++ [CallListFloatingIPs] in
            match ListFloatingIPs c log1 with
            | inr err =>
                (Returned (ingresses,
                           Some (Errorf "GetApiIngressStatus: Failed to list floating IP's: %v"
                                   (ArgErr err NoArgs))),
                 log2)
            | inl fips =>
                (Returned (GetApiIngressStatus_lbs lbList fips ingresses, None), log2)
            end
        end
      else (Returned (ingresses, None), log)
  end.

End Listing.

(** The addresses the two loops are to collect, written as a comprehension:
    for each load balancer in turn, the floating IPs on its VIP address. *)
Definition ingressesOf (lbList : list loadbalancers.LoadBalancer)
    (fips : list floatingips.FloatingIP) : list kops.ApiIngressStatus :=
  lb ← lbList;
  (fun fip => {| kops.Hostname := ""; kops.IP := floatingips.IP fip |})
    <$> filter (fun fip => floatingips.FixedIP fip = loadbalancers.VipAddress lb) fips.

End ingress.

(** An error built by [fmt.Errorf]. *)
Definition formatted (e : error) : Prop := exists format args, e = Errorf format args.

(** ** Concrete providers *)

Module Examples.
Import openstack openstacktasks.

Definition lb1 : loadbalancers.LoadBalancer :=
  {| loadbalancers.ID := "lb-1";
     loadbalancers.Name := "api";
     loadbalancers.VipSubnetID := "subnet-1";
     loadbalancers.VipPortID := "port-1";
     loadbalancers.VipAddress := "10.0.0.5" |}.

Definition subnet1 : subnets.Subnet :=
  {| subnets.ID := "subnet-1"; subnets.Name := "private"; subnets.CIDR := "10.0.0.0/24" |}.

(** A service that holds nothing: it answers "not found" to every request
    for an object and refuses every write. *)
Definition emptyService : gophercloud.ServiceClient :=
  {| gophercloud.loadbalancers_Get := fun _ _ => inr ErrDefault404;
     gophercloud.subnets_Get := fun _ _ => inr ErrDefault404;
     gophercloud.volumes_List := fun _ _ => inr (ProviderError 503 "unavailable");
     gophercloud.volumes_Create := fun _ _ => inr (ProviderError 503 "unavailable");
     gophercloud.volumes_Update := fun _ _ _ => inr ErrDefault404;
     gophercloud.volumeattach_Create := fun _ _ _ => inr ErrDefault404 |}.

(** A service that holds the load balancer [lb1] on the subnet [subnet1]. *)
Definition service1 : gophercloud.ServiceClient :=
  {| gophercloud.loadbalancers_Get :=
       fun _ id => if decide (id = "lb-1") then inl lb1 else inr ErrDefault404;
     gophercloud.subnets_Get :=
       fun _ id => if decide (id = "subnet-1") then inl subnet1 else inr ErrDefault404;
     gophercloud.volumes_List :=
       fun _ _ => inl {| pagination.ExtractVolumes := inl [] |};
     gophercloud.volumes_Create := fun _ _ => inr (ProviderError 503 "unavailable");
     gophercloud.volumes_Update := fun _ _ _ => inr ErrDefault404;
     gophercloud.volumeattach_Create := fun _ _ _ => inr ErrDefault404 |}.

(** A cloud with no subnet and no server group, whose listing of server
    groups fails. *)
Definition emptyCloud : OpenstackCloud :=
  {| LoadBalancerClient := emptyService;
     NetworkingClient := emptyService;
     ListSubnets := fun _ _ => inl [];
     CreateLB := fun _ _ => inr (ProviderError 503 "unavailable");
     ListServerGroups := fun _ => ([], Some (ProviderError 503 "unavailable")) |}.

(** A cloud with the subnet [subnet1], which creates load balancers on
    request, and with two server groups. *)
Definition cloud1 : OpenstackCloud :=
  {| LoadBalancerClient := service1;
     NetworkingClient := service1;
     ListSubnets :=
       fun _ opt => if decide (subnets.lo_Name opt = "private") then inl [subnet1] else inl [];
     CreateLB :=
       fun _ opt =>
         inl {| loadbalancers.ID := "lb-1";
                loadbalancers.Name := loadbalancers.co_Name opt;
                loadbalancers.VipSubnetID := loadbalancers.co_VipSubnetID opt;
                loadbalancers.VipPortID := "port-1";
                loadbalancers.VipAddress := "10.0.0.5" |};
     ListServerGroups :=
       fun _ => ([ {| servergroups.ID := "sg-1"; servergroups.Name := "masters" |};
                   {| servergroups.ID := "sg-2"; servergroups.Name := "nodes" |} ], None) |}.

(** The struct [openstackCloud] over the empty service. *)
Definition emptyOpenstackCloud : openstackCloud :=
  {| cinderClient := emptyService;
     neutronClient := emptyService;
     novaClient := emptyService;
     dnsClient := None;
     lbClient := emptyService;
     tags := ∅;
     region := "RegionOne" |}.

(** A desired load balancer that has not been created yet. *)
Definition wantedLB : LB :=
  {| ID := None; Name := Some "api"; Listener := None; Subnet := Some "private";
     VipSubnet := None; Lifecycle := Some fi.LifecycleSync; PortID := None |}.

(** The load balancer as [Find] reports it once it exists. *)
Definition foundLB : LB :=
  {| ID := Some "lb-1"; Name := Some "api"; Listener := None; Subnet := Some "private";
     VipSubnet := None; Lifecycle := Some fi.LifecycleSync; PortID := None |}.

(** A retry executor whose attempt budget is spent before any attempt: it
    reports neither done nor an error. *)
Definition spentExecutor (St : Type) (b : wait.Backoff)
    (op : St -> attempt * St) (st : St) : attempt * St :=
  ((false, None), st).

(** A retry executor that makes one attempt and reports it. *)
Definition singleAttempt (St : Type) (b : wait.Backoff)
    (op : St -> attempt * St) (st : St) : attempt * St :=
  op st.

End Examples.

(** ** Further concrete values *)

Module MoreExamples.
Import openstack.

(** The struct [openstackCloud] over [Examples.service1], whose listing of
    volumes succeeds with no volume. *)
Definition openstackCloud1 : openstackCloud :=
  {| cinderClient := Examples.service1;
     neutronClient := Examples.service1;
     novaClient := Examples.service1;
     dnsClient := None;
     lbClient := Examples.service1;
     tags := ∅;
     region := "RegionOne" |}.

(** A retry executor that makes one attempt under a policy of four steps and
    none under any other policy. *)
Definition fourStepsOnly (St : Type) (b : wait.Backoff)
    (op : St -> attempt * St) (st : St) : attempt * St :=
  if decide (wait.Steps b = 4%Z) then op st else ((false, None), st).

(** A retry executor that makes one attempt under a policy of five steps and
    none under any other policy. *)
Definition fiveStepsOnly (St : Type) (b : wait.Backoff)
    (op : St -> attempt * St) (st : St) : attempt * St :=
  if decide (wait.Steps b = 5%Z) then op st else ((false, None), st).

Definition apiLB : loadbalancers.LoadBalancer :=
  {| loadbalancers.ID := "lb-1";
     loadbalancers.Name := "api.test.k8s.local";
     loadbalancers.VipSubnetID := "subnet-1";
     loadbalancers.VipPortID := "port-1";
     loadbalancers.VipAddress := "10.0.0.5" |}.

Definition apiFloatingIP : floatingips.FloatingIP :=
  {| floatingips.ID := "fip-1";
     floatingips.FixedIP := "10.0.0.5";
     floatingips.InstanceID := "";
     floatingips.IP := "203.0.113.7";
     floatingips.Pool := "public" |}.

Definition otherFloatingIP : floatingips.FloatingIP :=
  {| floatingips.ID := "fip-2";
     floatingips.FixedIP := "10.0.0.9";
     floatingips.InstanceID := "server-1";
     floatingips.IP := "203.0.113.8";
     floatingips.Pool := "public" |}.

(** Listings that hold one load balancer and two floating IPs, one of them
    on the VIP address of the load balancer. *)
Definition listLBs (c : openstackCloud) (log : list ingress.IngressCall)
    (opt : ingress.ListOpts) : list loadbalancers.LoadBalancer + error :=
  inl [apiLB].

Definition listFloatingIPs (c : openstackCloud) (log : list ingress.IngressCall)
    : list floatingips.FloatingIP + error :=
  inl [otherFloatingIP; apiFloatingIP].

(** A listing of load balancers that fails. *)
Definition listLBsFails (c : openstackCloud) (log : list ingress.IngressCall)
    (opt : ingress.ListOpts) : list loadbalancers.LoadBalancer + error :=
  inr (ProviderError 503 "unavailable").

Definition testCluster : kops.Cluster :=
  {| kops.Name := "test.k8s.local";
     kops.Spec := {| kops.MasterPublicName := "api.test.k8s.local" |} |}.

End MoreExamples.

(** * Properties *)

(** Splits hypotheses made of conjunctions, disjunctions, existentials and
    equations between constructors, then closes the goal. *)
Ltac cases_solver :=
  repeat match goal with
         | |- _ <-> _ => split
         | |- _ -> _ => intro
         | H : _ \/ _ |- _ => destruct H
         | H : _ /\ _ |- _ => destruct H
         | H : exists _, _ |- _ => destruct H
         | H : Some _ = Some _ |- _ => injection H as H; subst
         end;
  solve [discriminate | congruence | eauto 12].

(** Unfolds the operations of the effect monad. *)
Ltac run_M :=
  unfold mbind, M_bind, bind, mret, M_ret, ret, call, panic; simpl.

(** ** [LB.CheckChanges] *)

Section CheckChangesProperties.
Import openstacktasks.

(** C2.  When the actual state is absent and the expected task has no
    name, [CheckChanges] returns [RequiredField "Name"]; the log of provider
    calls is left as it was, so no create call has been made. *)
Theorem CheckChanges_requires_name (ev : LB) (changes : option LB) (log : Log) :
  Name ev = None ->
  CheckChanges None (Some ev) changes log
    = (Returned (Some (RequiredField "Name")), log).
Proof. intros Hname. unfold CheckChanges. rewrite Hname. reflexivity. Qed.

Lemma CheckChanges_requires_name_witness :
  CheckChanges None (Some zeroLB) None []
    = (Returned (Some (RequiredField "Name")), []).
Proof. apply (CheckChanges_requires_name zeroLB None []). reflexivity. Defined.

(** C1, as amended.  When the actual state is present: a proposed new
    identifier yields [CannotChangeField "ID"]; a proposed new name yields
    [CannotChangeField "Name"] when no new identifier is proposed with it.
    In both cases the log of provider calls is left as it was. *)
Theorem CheckChanges_immutable_fields (av ch : LB) (e : option LB) (log : Log) :
  (is_Some (ID ch) ->
     CheckChanges (Some av) e (Some ch) log
       = (Returned (Some (CannotChangeField "ID")), log))
  /\ (ID ch = None -> is_Some (Name ch) ->
        CheckChanges (Some av) e (Some ch) log
          = (Returned (Some (CannotChangeField "Name")), log)).
Proof.
  unfold CheckChanges. split.
  - intros [id Hid]. rewrite Hid. reflexivity.
  - intros Hid [name Hname]. rewrite Hid, Hname. reflexivity.
Qed.

(** C1 as stated fails when a new identifier and a new name are proposed
    together: the identifier is checked first, so the error names "ID" and
    not "Name". *)
Lemma CheckChanges_claim_fails :
  ~ (forall (av ch : LB) (e : option LB) (log : Log),
       (is_Some (ID ch) ->
          CheckChanges (Some av) e (Some ch) log
            = (Returned (Some (CannotChangeField "ID")), log))
       /\ (is_Some (Name ch) ->
             CheckChanges (Some av) e (Some ch) log
               = (Returned (Some (CannotChangeField "Name")), log))).
Proof.
  intros H.
  destruct (H Examples.foundLB (set_ID (Some "id-2") (Examples.foundLB)) None [])
    as [_ Hname].
  specialize (Hname (ex_intro _ "api" eq_refl)).
  discriminate Hname.
Qed.

Lemma CheckChanges_immutable_fields_witness :
  CheckChanges (Some Examples.foundLB) None (Some (set_ID (Some "id-2") zeroLB)) []
    = (Returned (Some (CannotChangeField "ID")), [])
  /\ CheckChanges (Some Examples.foundLB) None (Some Examples.wantedLB) []
     = (Returned (Some (CannotChangeField "Name")), []).
Proof.
  split.
  - apply (proj1 (CheckChanges_immutable_fields Examples.foundLB
                    (set_ID (Some "id-2") zeroLB) None [])).
    exists "id-2". reflexivity.
  - apply (proj2 (CheckChanges_immutable_fields Examples.foundLB Examples.wantedLB None [])).
    + reflexivity.
    + exists "api". reflexivity.
Defined.

End CheckChangesProperties.

(** ** [LB.Find] *)

Section FindProperties.
Import openstacktasks.

(** C3, as amended.  [Find] queries the provider with the identifier of the
    task when it is known, and then looks up the subnet of the load balancer
    it got; it returns the populated instance, or the error of the request
    that failed (a "not found" of the provider included).  When the identifier
    is unknown [Find] issues no request and returns the "not found" result,
    with no error. *)
Theorem Find_by_identifier (s : LB) (context : fi.Context openstack.OpenstackCloud)
    (log : Log) :
  (ID s = None -> Find s context log = (Returned (None, None), log))
  /\ (forall id, ID s = Some id ->
        let cloud := fi.Cloud context in
        let get := CallLoadBalancersGet id in
        match gophercloud.loadbalancers_Get (openstack.LoadBalancerClient cloud) log id with
        | inr err => Find s context log = (Returned (None, Some err), log ++ [get])
        | inl lb =>
            let getSubnet := CallSubnetsGet (loadbalancers.VipSubnetID lb) in
            match gophercloud.subnets_Get (openstack.NetworkingClient cloud) (log ++ [get])
                    (loadbalancers.VipSubnetID lb) with
            | inr err =>
                Find s context log = (Returned (None, Some err), log ++ [get; getSubnet])
            | inl sub =>
                Find s context log
                  = (Returned
                       (Some {| ID := Some (loadbalancers.ID lb);
                                Name := Some (loadbalancers.Name lb);
                                Listener := None;
                                Subnet := Some (subnets.Name sub);
                                VipSubnet := None;
                                Lifecycle := Lifecycle s;
                                PortID := None |},
                        None),
                     log ++ [get; getSubnet])
            end
        end).
Proof.
  split.
  - intros Hid. unfold Find. rewrite Hid. reflexivity.
  - intros id Hid. unfold Find, NewLBTaskFromCloud. rewrite Hid. run_M.
    destruct (gophercloud.loadbalancers_Get _ log id) as [lb|err]; [|reflexivity].
    destruct (gophercloud.subnets_Get _ _ _) as [sub|err];
      rewrite <- app_assoc; reflexivity.
Qed.

Lemma Find_by_identifier_witness :
  Find Examples.wantedLB {| fi.Cloud := Examples.cloud1 |} [] = (Returned (None, None), [])
  /\ Find Examples.foundLB {| fi.Cloud := Examples.cloud1 |} []
     = (Returned (Some Examples.foundLB, None),
        [CallLoadBalancersGet "lb-1"; CallSubnetsGet "subnet-1"]).
Proof.
  split.
  - apply (Find_by_identifier Examples.wantedLB {| fi.Cloud := Examples.cloud1 |} []).
    reflexivity.
  - apply (proj2 (Find_by_identifier Examples.foundLB {| fi.Cloud := Examples.cloud1 |} [])
             "lb-1" eq_refl).
Defined.

(** C3 as stated fails twice.  A task without identifier is not looked up
    under any other key: no request is issued at all.  And when the provider
    answers "not found" to the request by identifier, [Find] returns that
    answer as an error, not as the "not found" result. *)
Lemma Find_claim_fails :
  ~ (forall (s : LB) context log, ID s = None -> calls_of (Find s context) log <> [])
  /\ ~ (forall (s : LB) context log id,
          ID s = Some id ->
          gophercloud.loadbalancers_Get
            (openstack.LoadBalancerClient (fi.Cloud context)) log id = inr ErrDefault404 ->
          fst (Find s context log) = Returned (None, None)).
Proof.
  split.
  - intros H.
    apply (H Examples.wantedLB {| fi.Cloud := Examples.cloud1 |} []); reflexivity.
  - intros H.
    specialize (H Examples.foundLB {| fi.Cloud := Examples.emptyCloud |} [] "lb-1"
                  eq_refl eq_refl).
    discriminate H.
Qed.

End FindProperties.

(** ** [LB.RenderOpenstack] *)

Section RenderOpenstackProperties.
Import openstacktasks.

(** C4, as amended.  When the actual state is present, [RenderOpenstack]
    does nothing, whatever the change set holds: it issues no provider call,
    leaves the expected task as it is and returns no error. *)
Theorem RenderOpenstack_present_is_noop (t : openstack.OpenstackAPITarget) (av : LB)
    (e changes : option LB) (log : Log) :
  RenderOpenstack t (Some av) e changes log = (Returned (None, e), log).
Proof. reflexivity. Qed.

(** C4 as stated fails: with the actual state present and a change set that
    holds a new subnet, no call is issued, so no update call either. *)
Lemma RenderOpenstack_update_claim_fails :
  ~ (forall (t : openstack.OpenstackAPITarget) (av ch : LB) (e : option LB) (log : Log),
       ch <> zeroLB ->
       calls_of (RenderOpenstack t (Some av) e (Some ch)) log <> []).
Proof.
  intros H.
  apply (H {| openstack.Cloud := Examples.cloud1 |} Examples.foundLB
           {| ID := None; Name := None; Listener := None; Subnet := Some "public";
              VipSubnet := None; Lifecycle := None; PortID := None |}
           (Some Examples.wantedLB) []).
  - discriminate.
  - reflexivity.
Qed.

(** C5, as amended.  When the actual state is absent, [RenderOpenstack]
    first lists the subnets named by the expected task.  If the listing
    holds exactly one subnet, it issues a create call with the name of the
    expected task and the identifier of that subnet; when the create call
    succeeds, [ID], [PortID] and [VipSubnet] of the task are set from the load
    balancer the provider returned, and [Name], [Listener], [Subnet] and
    [Lifecycle] keep their values.  If the listing fails, or holds no subnet
    or several, an error is returned, no create call is issued and the task
    is left as it was; so it is when the create call fails. *)
Theorem RenderOpenstack_absent_creates (t : openstack.OpenstackAPITarget) (ev : LB)
    (changes : option LB) (log : Log) :
  let list := {| subnets.lo_Name := fi.StringValue (Subnet ev) |} in
  let listed := openstack.ListSubnets (openstack.Cloud t) log list in
  let create sub :=
    {| loadbalancers.co_Name := fi.StringValue (Name ev);
       loadbalancers.co_VipSubnetID := subnets.ID sub |} in
  let created sub :=
    openstack.CreateLB (openstack.Cloud t) (log ++ [CallListSubnets list]) (create sub) in
  (forall sub lb, listed = inl [sub] -> created sub = inl lb ->
     exists ev',
       RenderOpenstack t None (Some ev) changes log
         = (Returned (None, Some ev'),
            log ++ [CallListSubnets list; CallCreateLB (create sub)])
       /\ ID ev' = Some (loadbalancers.ID lb)
       /\ PortID ev' = Some (loadbalancers.VipPortID lb)
       /\ VipSubnet ev' = Some (loadbalancers.VipSubnetID lb)
       /\ Name ev' = Name ev /\ Listener ev' = Listener ev
       /\ Subnet ev' = Subnet ev /\ Lifecycle ev' = Lifecycle ev)
  /\ (forall sub err, listed = inl [sub] -> created sub = inr err ->
        RenderOpenstack t None (Some ev) changes log
          = (Returned (Some (Errorf "error creating LB: %v" (ArgErr err NoArgs)), Some ev),
             log ++ [CallListSubnets list; CallCreateLB (create sub)]))
  /\ ((forall sub, listed <> inl [sub]) ->
        exists err,
          RenderOpenstack t None (Some ev) changes log
            = (Returned (Some err, Some ev), log ++ [CallListSubnets list])).
Proof.
  intros list listed create created. subst listed created.
  unfold RenderOpenstack. run_M. fold list.
  split; [|split].
  - intros sub lb Hlist Hcreate. rewrite Hlist. fold (create sub). rewrite Hcreate.
    eexists. rewrite <- app_assoc. split; [reflexivity|]. simpl. tauto.
  - intros sub err Hlist Hcreate. rewrite Hlist. fold (create sub). rewrite Hcreate.
    rewrite <- app_assoc. reflexivity.
  - intros Hnot.
    destruct (openstack.ListSubnets (openstack.Cloud t) log list) as [[|sub [|sub' subs]]|err];
      try (eexists; reflexivity).
    exfalso. apply (Hnot sub). reflexivity.
Qed.

Lemma RenderOpenstack_absent_creates_witness :
  exists ev',
    RenderOpenstack {| openstack.Cloud := Examples.cloud1 |} None (Some Examples.wantedLB)
      None []
      = (Returned (None, Some ev'),
         [CallListSubnets {| subnets.lo_Name := "private" |};
          CallCreateLB {| loadbalancers.co_Name := "api";
                          loadbalancers.co_VipSubnetID := "subnet-1" |}])
    /\ ID ev' = Some "lb-1" /\ PortID ev' = Some "port-1" /\ VipSubnet ev' = Some "subnet-1"
    /\ Name ev' = Some "api" /\ Listener ev' = None
    /\ Subnet ev' = Some "private" /\ Lifecycle ev' = Some fi.LifecycleSync.
Proof.
  apply (proj1 (RenderOpenstack_absent_creates {| openstack.Cloud := Examples.cloud1 |}
                  Examples.wantedLB None []) Examples.subnet1
           {| loadbalancers.ID := "lb-1";
              loadbalancers.Name := "api";
              loadbalancers.VipSubnetID := "subnet-1";
              loadbalancers.VipPortID := "port-1";
              loadbalancers.VipAddress := "10.0.0.5" |});
    reflexivity.
Defined.

(** C5 as stated fails: with the actual state absent and a provider that
    lists no subnet of the expected name, no create call is issued. *)
Lemma RenderOpenstack_create_claim_fails :
  ~ (forall (t : openstack.OpenstackAPITarget) (ev : LB) (changes : option LB) (log : Log),
       exists opt, CallCreateLB opt ∈ calls_of (RenderOpenstack t None (Some ev) changes) log).
Proof.
  intros H.
  destruct (H {| openstack.Cloud := Examples.emptyCloud |} Examples.wantedLB None [])
    as [opt Hin].
  vm_compute in Hin.
  apply list_elem_of_singleton in Hin. discriminate Hin.
Qed.

End RenderOpenstackProperties.

(** ** Backoff policies *)

Section BackoffProperties.
Import openstack.

(** C6.  The write policy is one second, factor 1.5, jitter 0.1, 5 steps.
    The read policy allows strictly fewer attempts, and its delays start no
    longer and grow no faster than those of the write policy. *)
Theorem backoff_policies :
  writeBackoff
    = {| wait.Duration := time.Second;
         wait.Factor := 1.5%Q;
         wait.Jitter := 0.1%Q;
         wait.Steps := 5 |}
  /\ time.Second = 1000000000%Z
  /\ (wait.Steps readBackoff < wait.Steps writeBackoff)%Z
  /\ (wait.Duration readBackoff <= wait.Duration writeBackoff)%Z
  /\ (wait.Factor readBackoff <= wait.Factor writeBackoff)%Q.
Proof.
  split; [reflexivity|]. split; [reflexivity|].
  unfold readBackoff, writeBackoff; simpl. unfold time.Second.
  split; [lia|]. split; [lia|]. apply Qle_refl.
Qed.

Variables R R' :
  forall St : Type, wait.Backoff -> (St -> attempt * St) -> St -> attempt * St.

(** One policy per class of operation: the read operation consults the retry
    executor under [readBackoff] only, the write operations under
    [writeBackoff] only. *)
Lemma ListVolumes_under_readBackoff c opt log :
  (forall St op st, R St readBackoff op st = R' St readBackoff op st) ->
  ListVolumes R c opt log = ListVolumes R' c opt log.
Proof. intros H. unfold ListVolumes. rewrite H. reflexivity. Qed.

Lemma CreateVolume_under_writeBackoff c opt log :
  (forall St op st, R St writeBackoff op st = R' St writeBackoff op st) ->
  CreateVolume R c opt log = CreateVolume R' c opt log.
Proof. intros H. unfold CreateVolume. rewrite H. reflexivity. Qed.

Lemma AttachVolume_under_writeBackoff c serverID opts log :
  (forall St op st, R St writeBackoff op st = R' St writeBackoff op st) ->
  AttachVolume R c serverID opts log = AttachVolume R' c serverID opts log.
Proof. intros H. unfold AttachVolume. rewrite H. reflexivity. Qed.

Lemma SetVolumeTags_under_writeBackoff c id tags log :
  (forall St op st, R St writeBackoff op st = R' St writeBackoff op st) ->
  SetVolumeTags R c id tags log = SetVolumeTags R' c id tags log.
Proof.
  intros H. unfold SetVolumeTags.
  repeat case_decide; try reflexivity. rewrite H. reflexivity.
Qed.

End BackoffProperties.

(** ** The retry-wrapped volume operations *)

Section VolumeProperties.
Import openstack.

Variable R :
  forall St : Type, wait.Backoff -> (St -> attempt * St) -> St -> attempt * St.
Variable c : openstackCloud.

(** C9.  With an empty tag map [SetVolumeTags] returns no error and issues
    no provider call, whatever the identifier; with a non-empty tag map and
    the empty identifier it returns an error and issues no provider call.  In
    both cases the retry executor is not consulted: the result is the same
    for every executor. *)
Theorem SetVolumeTags_guards (id : string) (tags : gmap string string) (log : Log) :
  (size tags = 0 -> SetVolumeTags R c id tags log = (Returned None, log))
  /\ (size tags <> 0 -> id = "" ->
        SetVolumeTags R c id tags log
          = (Returned (Some (Errorf "error setting tags to unknown volume" NoArgs)), log)).
Proof.
  unfold SetVolumeTags. split.
  - intros Hempty. rewrite decide_True by assumption. reflexivity.
  - intros Hsome Hid. rewrite decide_False by assumption.
    rewrite decide_True by assumption. reflexivity.
Qed.

Lemma formatted_not_timeout e : formatted e -> e <> ErrWaitTimeout.
Proof. intros (format & args & ->). discriminate. Qed.

(** Every error that an attempt of one of the four closures reports is built
    by [fmt.Errorf]. *)
Lemma ListVolumes_op_error opt st e :
  snd (fst (ListVolumes_op c opt st)) = Some e -> formatted e.
Proof.
  destruct st as [log volumes]. unfold ListVolumes_op.
  destruct (gophercloud.volumes_List _ _ _) as [page|err]; simpl.
  - destruct (pagination.ExtractVolumes page); simpl; intros [= <-]; do 2 eexists; reflexivity.
  - intros [= <-]. do 2 eexists; reflexivity.
Qed.

Lemma CreateVolume_op_error opt st e :
  snd (fst (CreateVolume_op c opt st)) = Some e -> formatted e.
Proof.
  destruct st as [log volume]. unfold CreateVolume_op.
  destruct (gophercloud.volumes_Create _ _ _); simpl; intros [= <-].
  do 2 eexists; reflexivity.
Qed.

Lemma AttachVolume_op_error serverID opts st e :
  snd (fst (AttachVolume_op c serverID opts st)) = Some e -> formatted e.
Proof.
  destruct st as [log attachment]. unfold AttachVolume_op.
  destruct (gophercloud.volumeattach_Create _ _ _ _); simpl; intros [= <-].
  do 2 eexists; reflexivity.
Qed.

Lemma SetVolumeTags_op_error id opt log e :
  snd (fst (SetVolumeTags_op c id opt log)) = Some e -> formatted e.
Proof.
  unfold SetVolumeTags_op.
  destruct (gophercloud.volumes_Update _ _ _ _); simpl; intros [= <-].
  do 2 eexists; reflexivity.
Qed.

(** C7.  For each of the four operations, let [(done, err)] be what the
    retry executor reports.  If it reports neither done nor an error (the
    budget of attempts is spent), the operation returns [ErrWaitTimeout]; if
    it reports an error, the operation returns that error.  An error reported
    by an attempt of the wrapped closure is never [ErrWaitTimeout], so the two
    are told apart. *)
Theorem retry_wrapped_timeout_or_error :
  (forall opt log done err log' volumes,
     R _ readBackoff (ListVolumes_op c opt) (log, []) = ((done, err), (log', volumes)) ->
     (done = false -> err = None ->
        ListVolumes R c opt log = (Returned (volumes, Some ErrWaitTimeout), log'))
     /\ (forall e, err = Some e ->
           ListVolumes R c opt log = (Returned (volumes, Some e), log')))
  /\ (forall opt log done err log' volume,
        R _ writeBackoff (CreateVolume_op c opt) (log, None) = ((done, err), (log', volume)) ->
        (done = false -> err = None ->
           CreateVolume R c opt log = (Returned (volume, Some ErrWaitTimeout), log'))
        /\ (forall e, err = Some e ->
              CreateVolume R c opt log = (Returned (volume, Some e), log')))
  /\ (forall serverID opts log done err log' attachment,
        R _ writeBackoff (AttachVolume_op c serverID opts) (log, None)
          = ((done, err), (log', attachment)) ->
        (done = false -> err = None ->
           AttachVolume R c serverID opts log
             = (Returned (attachment, Some ErrWaitTimeout), log'))
        /\ (forall e, err = Some e ->
              AttachVolume R c serverID opts log = (Returned (attachment, Some e), log')))
  /\ (forall id tags log done err log',
        size tags <> 0 -> id <> "" ->
        R _ writeBackoff (SetVolumeTags_op c id {| cinder.uo_Metadata := tags |}) log
          = ((done, err), log') ->
        (done = false -> err = None ->
           SetVolumeTags R c id tags log = (Returned (Some ErrWaitTimeout), log'))
        /\ (forall e, err = Some e ->
              SetVolumeTags R c id tags log = (Returned (Some e), log')))
  /\ (forall e,
        (exists opt st, snd (fst (ListVolumes_op c opt st)) = Some e)
        \/ (exists opt st, snd (fst (CreateVolume_op c opt st)) = Some e)
        \/ (exists serverID opts st, snd (fst (AttachVolume_op c serverID opts st)) = Some e)
        \/ (exists id opt log, snd (fst (SetVolumeTags_op c id opt log)) = Some e) ->
        e <> ErrWaitTimeout).
Proof.
  repeat apply conj.
  - intros opt log done err log' volumes HR. unfold ListVolumes. rewrite HR.
    split; [intros -> ->|intros e ->]; reflexivity.
  - intros opt log done err log' volume HR. unfold CreateVolume. rewrite HR.
    split; [intros -> ->|intros e ->]; reflexivity.
  - intros serverID opts log done err log' attachment HR. unfold AttachVolume. rewrite HR.
    split; [intros -> ->|intros e ->]; [reflexivity|].
    destruct done; reflexivity.
  - intros id tags log done err log' Htags Hid HR. unfold SetVolumeTags.
    rewrite !decide_False by assumption. rewrite HR.
    split; [intros -> ->|intros e ->]; reflexivity.
  - intros e H. apply formatted_not_timeout.
    destruct H as [(opt & st & H)|[(opt & st & H)|[(serverID & opts & st & H)|(id & opt & log & H)]]].
    + eapply ListVolumes_op_error; eassumption.
    + eapply CreateVolume_op_error; eassumption.
    + eapply AttachVolume_op_error; eassumption.
    + eapply SetVolumeTags_op_error; eassumption.
Qed.

End VolumeProperties.

Section VolumeWitnesses.
Import openstack.

Lemma SetVolumeTags_guards_witness :
  SetVolumeTags Examples.spentExecutor Examples.emptyOpenstackCloud "" ∅ []
    = (Returned None, [])
  /\ SetVolumeTags Examples.spentExecutor Examples.emptyOpenstackCloud ""
       {[ "KubernetesCluster" := "test.k8s.local" ]} []
     = (Returned (Some (Errorf "error setting tags to unknown volume" NoArgs)), []).
Proof.
  split.
  - apply (proj1 (SetVolumeTags_guards Examples.spentExecutor Examples.emptyOpenstackCloud
                    "" ∅ [])).
    reflexivity.
  - apply (proj2 (SetVolumeTags_guards Examples.spentExecutor Examples.emptyOpenstackCloud
                    "" {[ "KubernetesCluster" := "test.k8s.local" ]} [])).
    + vm_compute. discriminate.
    + reflexivity.
Defined.

Lemma retry_wrapped_timeout_or_error_witness :
  let opt := {| cinder.lo_Name := "etcd-main"; cinder.lo_Status := "available" |} in
  ListVolumes Examples.spentExecutor Examples.emptyOpenstackCloud opt []
    = (Returned ([], Some ErrWaitTimeout), [])
  /\ ListVolumes Examples.singleAttempt Examples.emptyOpenstackCloud opt []
     = (Returned ([], Some (Errorf "error listing volumes %v: %v"
                              (ArgVolumeListOpts opt
                                 (ArgErr (ProviderError 503 "unavailable") NoArgs)))),
        [CallVolumesList opt]).
Proof.
  intros opt. split.
  - apply (proj1 (proj1 (retry_wrapped_timeout_or_error Examples.spentExecutor
                           Examples.emptyOpenstackCloud)
                    opt [] false None [] [] eq_refl));
      reflexivity.
  - apply (proj2 (proj1 (retry_wrapped_timeout_or_error Examples.singleAttempt
                           Examples.emptyOpenstackCloud)
                    opt [] false _ [CallVolumesList opt] [] eq_refl)).
    reflexivity.
Defined.

End VolumeWitnesses.

(** ** [OpenstackAPITarget.GetIDForServerGroupName] *)

Section ServerGroupProperties.
Import openstack.

Lemma GetIDForServerGroupName_range_spec (name : string)
    (groups : list servergroups.ServerGroup) (log : Log) :
  exists r,
    GetIDForServerGroupName_range (Some name) groups log = (Returned r, log)
    /\ ((exists before sg after,
           groups = before ++ sg :: after
           /\ Forall (fun g => servergroups.Name g <> name) before
           /\ servergroups.Name sg = name
           /\ r = (Some (servergroups.ID sg), None))
        \/ (Forall (fun g => servergroups.Name g <> name) groups
            /\ r = (None, Some (Errorf "ID not found for Server Group Name %s."
                                  (ArgString name NoArgs))))).
Proof.
  induction groups as [|g groups IH]; simpl.
  - eexists. split; [reflexivity|]. right. split; [constructor|reflexivity].
  - case_decide as Hname.
    + eexists. split; [reflexivity|]. left.
      exists [], g, groups. repeat split; [constructor|assumption].
    + destruct IH as (r & Hrun & Hr). exists r. split; [assumption|].
      destruct Hr as [(before & sg & after & -> & Hbefore & Hsg & ->)|[Hnone ->]].
      * left. exists (g :: before), sg, after.
        repeat split; [constructor; assumption|assumption].
      * right. split; [constructor; assumption|reflexivity].
Qed.

(** C10.  [GetIDForServerGroupName] issues one listing of the server groups
    and reads only the list of it, never its error: it returns the identifier
    of the first listed group that has the name asked for, or, when no listed
    group has it (as after a failed listing that holds no group), the error
    "ID not found". *)
Theorem GetIDForServerGroupName_first_match (t : OpenstackAPITarget) (name : string)
    (log : Log) :
  let groups := fst (ListServerGroups (Cloud t) log) in
  exists r,
    GetIDForServerGroupName t (Some name) log = (Returned r, log ++ [CallListServerGroups])
    /\ ((exists before sg after,
           groups = before ++ sg :: after
           /\ Forall (fun g => servergroups.Name g <> name) before
           /\ servergroups.Name sg = name
           /\ r = (Some (servergroups.ID sg), None))
        \/ (Forall (fun g => servergroups.Name g <> name) groups
            /\ r = (None, Some (Errorf "ID not found for Server Group Name %s."
                                  (ArgString name NoArgs))))).
Proof.
  intros groups. subst groups. unfold GetIDForServerGroupName.
  unfold mbind, M_bind, bind, call.
  destruct (ListServerGroups (Cloud t) log) as [groups err]; simpl.
  apply GetIDForServerGroupName_range_spec.
Qed.

(** The error of the listing has no part in the result: two targets whose
    listings hold the same groups get the same answer, whether or not either
    listing failed. *)
Lemma GetIDForServerGroupName_discards_error (t t' : OpenstackAPITarget)
    (sgName : option string) (log : Log) :
  fst (ListServerGroups (Cloud t) log) = fst (ListServerGroups (Cloud t') log) ->
  GetIDForServerGroupName t sgName log = GetIDForServerGroupName t' sgName log.
Proof.
  unfold GetIDForServerGroupName, mbind, M_bind, bind, call.
  destruct (ListServerGroups (Cloud t) log) as [groups err].
  destruct (ListServerGroups (Cloud t') log) as [groups' err']. simpl.
  intros ->. reflexivity.
Qed.

(** A failed listing that holds no group reads as "no such group". *)
Example GetIDForServerGroupName_failed_listing :
  GetIDForServerGroupName {| Cloud := Examples.emptyCloud |} (Some "masters") []
  = (Returned (None, Some (Errorf "ID not found for Server Group Name %s."
                             (ArgString "masters" NoArgs))),
     [CallListServerGroups]).
Proof. reflexivity. Qed.

Example GetIDForServerGroupName_found :
  GetIDForServerGroupName {| Cloud := Examples.cloud1 |} (Some "nodes") []
  = (Returned (Some "sg-2", None), [CallListServerGroups]).
Proof. reflexivity. Qed.

End ServerGroupProperties.

(** ** [LB.GetDependencies] *)

Section DependencyProperties.
Import openstacktasks.
Context {SubnetTask ServerGroupTask InstanceTask OtherTask : Type}.
Local Abbreviation Task := (Task SubnetTask ServerGroupTask InstanceTask OtherTask).

Lemma GetDependencies_step_elem (deps : list Task) (task t : Task) :
  t ∈ GetDependencies_step deps task <-> t ∈ deps \/ (t = task /\ isDependencyKind t = true).
Proof.
  unfold GetDependencies_step.
  destruct task; simpl; rewrite ?elem_of_app, ?list_elem_of_singleton;
    split; intros H.
  all: try (destruct H as [H|H]; [left; assumption|right; split; [assumption|subst; reflexivity]]).
  all: try (destruct H as [H|[H _]]; [left; assumption|right; assumption]).
  all: try (left; assumption).
  all: destruct H as [H|[-> H]]; [assumption|discriminate H].
Qed.

Lemma GetDependencies_loop_elem (entries : list (string * Task)) (deps : list Task) (t : Task) :
  t ∈ foldl (fun deps kv => GetDependencies_step deps (snd kv)) deps entries
  <-> t ∈ deps \/ ((exists name, (name, t) ∈ entries) /\ isDependencyKind t = true).
Proof.
  revert deps. induction entries as [|[name task] entries IH]; intros deps; simpl.
  - split; [intros H; left; assumption|].
    intros [H|[[name H] _]]; [assumption|]. inversion H.
  - rewrite IH, GetDependencies_step_elem. split.
    + intros [[H|[-> Hkind]]|[[name' H] Hkind]].
      * left; assumption.
      * right. split; [exists name; left|assumption].
      * right. split; [exists name'; right; assumption|assumption].
    + intros [H|[[name' H] Hkind]].
      * left; left; assumption.
      * apply elem_of_cons in H. destruct H as [[= -> ->]|H].
        -- left; right. split; [reflexivity|assumption].
        -- right. split; [exists name'; assumption|assumption].
Qed.

(** In whatever order the range statement visits the entries of the map,
    the same tasks are selected. *)
Lemma GetDependencies_range_elem (e : LB) (tasks : gmap string Task)
    (entries : list (string * Task)) (t : Task) :
  entries ≡ₚ map_to_list tasks ->
  t ∈ GetDependencies_range e entries
  <-> (exists name, tasks !! name = Some t) /\ isDependencyKind t = true.
Proof.
  intros Hperm. unfold GetDependencies_range. rewrite GetDependencies_loop_elem.
  split.
  - intros [H|[[name H] Hkind]]; [inversion H|].
    split; [|assumption]. exists name.
    apply elem_of_map_to_list. rewrite <- Hperm. assumption.
  - intros [[name H] Hkind]. right. split; [|assumption]. exists name.
    rewrite Hperm. apply elem_of_map_to_list. assumption.
Qed.

(** C8, as amended.  The tasks that [GetDependencies] returns are exactly
    the tasks of the map whose dynamic type is [*Subnet], [*ServerGroup] or
    [*Instance], under whatever name the map holds them; the fields of the
    load balancer have no part in it, so that every load balancer gets the
    same dependencies from the same map. *)
Theorem GetDependencies_by_kind (e : LB) (tasks : gmap string Task) :
  (forall t : Task,
     t ∈ GetDependencies e tasks
     <-> (exists name, tasks !! name = Some t) /\ isDependencyKind t = true)
  /\ (forall e' : LB, GetDependencies e' tasks = GetDependencies e tasks).
Proof.
  split.
  - intros t. apply GetDependencies_range_elem. reflexivity.
  - intros e'. reflexivity.
Qed.

End DependencyProperties.

(** C8 as stated fails: a load balancer none of whose fields is set refers
    to no task through a field, and yet it depends on the subnet task that
    the map holds. *)
Lemma GetDependencies_claim_fails :
  ~ (forall tasks : gmap string (openstacktasks.Task string string string string),
       openstacktasks.GetDependencies openstacktasks.zeroLB tasks = []).
Proof.
  intros H.
  specialize (H {[ "subnet/private" := openstacktasks.TSubnet "private" ]}).
  unfold openstacktasks.GetDependencies in H.
  rewrite map_to_list_singleton in H.
  discriminate H.
Qed.

(** * Further properties of the embedded code *)

(** ** [LB.CheckChanges], [LB.Find] and [NewLBTaskFromCloud] *)

Section TaskOutcomes.
Import openstacktasks.

(** X1.  [CheckChanges] never touches the provider.  It accepts (returns no
    error) exactly when the actual state is absent and the expected task is
    named, or the actual state is present and the change set proposes neither
    a new [ID] nor a new [Name]: changes to any other field are let through.
    It panics exactly when the pointer it has to read is [nil]: [e] with the
    actual state absent, [changes] with the actual state present. *)
Theorem CheckChanges_outcomes (a e changes : option LB) (log : Log) :
  snd (CheckChanges a e changes log) = log
  /\ (fst (CheckChanges a e changes log) = Returned None
      <-> (a = None /\ exists ev, e = Some ev /\ is_Some (Name ev))
          \/ (is_Some a /\ exists ch, changes = Some ch /\ ID ch = None /\ Name ch = None))
  /\ (fst (CheckChanges a e changes log) = Panicked
      <-> (a = None /\ e = None) \/ (is_Some a /\ changes = None)).
Proof.
  unfold CheckChanges, is_Some.
  destruct a as [av|]; [destruct changes as [ch|]|destruct e as [ev|]]; simpl.
  - destruct (ID ch) as [id|] eqn:Hid; destruct (Name ch) as [name|] eqn:Hname; simpl;
      (split; [reflexivity|]); split; split; cases_solver.
  - split; [reflexivity|]. split; split; cases_solver.
  - destruct (Name ev) as [name|] eqn:Hname; simpl;
      (split; [reflexivity|]); split; split; cases_solver.
  - split; [reflexivity|]. split; split; cases_solver.
Qed.

(** X2.  [NewLBTaskFromCloud] issues exactly one request, for the subnet of
    the load balancer by its [VipSubnetID].  If the request fails, the error is
    returned and the load balancer is dropped; otherwise the task returned is
    identified by the [ID] of the load balancer, bears its name and the
    lifecycle given, and has no listener, VIP subnet or port. *)
Theorem NewLBTaskFromCloud_one_request (cloud : openstack.OpenstackCloud)
    (lifecycle : option fi.Lifecycle) (lb : loadbalancers.LoadBalancer) (log : Log) :
  exists r,
    NewLBTaskFromCloud cloud lifecycle lb log
      = (Returned r, log ++ [CallSubnetsGet (loadbalancers.VipSubnetID lb)])
    /\ ((exists err,
           gophercloud.subnets_Get (openstack.NetworkingClient cloud) log
             (loadbalancers.VipSubnetID lb) = inr err
           /\ r = (None, Some err))
        \/ (exists sub av,
              gophercloud.subnets_Get (openstack.NetworkingClient cloud) log
                (loadbalancers.VipSubnetID lb) = inl sub
              /\ r = (Some av, None)
              /\ CompareWithID av = Some (loadbalancers.ID lb)
              /\ Name av = Some (loadbalancers.Name lb)
              /\ Subnet av = Some (subnets.Name sub)
              /\ Lifecycle av = lifecycle
              /\ Listener av = None /\ VipSubnet av = None /\ PortID av = None)).
Proof.
  unfold NewLBTaskFromCloud. run_M.
  destruct (gophercloud.subnets_Get _ log _) as [sub|err] eqn:Hsub.
  - eexists. split; [reflexivity|]. right. exists sub. eexists.
    split; [reflexivity|]. split; [reflexivity|]. simpl. tauto.
  - eexists. split; [reflexivity|]. left. exists err. split; reflexivity.
Qed.

(** What [Find] returns and what it adds to the log, by cases. *)
Lemma Find_cases (s : LB) (context : fi.Context openstack.OpenstackCloud) (log : Log) :
  (ID s = None /\ Find s context log = (Returned (None, None), log))
  \/ (exists id err,
        ID s = Some id
        /\ Find s context log = (Returned (None, Some err), log ++ [CallLoadBalancersGet id]))
  \/ (exists id vip err,
        ID s = Some id
        /\ Find s context log
           = (Returned (None, Some err), log ++ [CallLoadBalancersGet id; CallSubnetsGet vip]))
  \/ (exists id vip lbID lbName subName,
        ID s = Some id
        /\ Find s context log
           = (Returned (Some {| ID := Some lbID; Name := Some lbName; Listener := None;
                                Subnet := Some subName; VipSubnet := None;
                                Lifecycle := Lifecycle s; PortID := None |}, None),
              log ++ [CallLoadBalancersGet id; CallSubnetsGet vip])).
Proof.
  unfold Find, NewLBTaskFromCloud.
  destruct (ID s) as [id|] eqn:Hid; [|left; split; reflexivity].
  right. run_M.
  destruct (gophercloud.loadbalancers_Get _ log id) as [lb|err].
  - right.
    destruct (gophercloud.subnets_Get _ _ _) as [sub|err]; rewrite <- app_assoc; simpl.
    + right. do 5 eexists. split; reflexivity.
    + left. do 3 eexists. split; reflexivity.
  - left. do 2 eexists. split; reflexivity.
Qed.

(** X3.  When [Find] returns an instance, it returns no error with it, the
    task had an identifier, and the instance has [ID], [Name] and [Subnet]
    set, the lifecycle of the task, and no [Listener], [VipSubnet] or
    [PortID]: these three fields are never read back from the provider. *)
Theorem Find_found_instance (s av : LB) (context : fi.Context openstack.OpenstackCloud)
    (log : Log) (err : option error) :
  fst (Find s context log) = Returned (Some av, err) ->
  err = None
  /\ is_Some (ID s)
  /\ is_Some (ID av) /\ is_Some (Name av) /\ is_Some (Subnet av)
  /\ Lifecycle av = Lifecycle s
  /\ Listener av = None /\ VipSubnet av = None /\ PortID av = None.
Proof.
  intros H.
  destruct (Find_cases s context log)
    as [[_ HF]|[(id & e & _ & HF)|[(id & vip & e & _ & HF)
         |(id & vip & lbID & lbName & subName & Hid & HF)]]];
    rewrite HF in H; simpl in H; try discriminate H.
  injection H as <- <-. rewrite Hid. simpl.
  repeat split; eexists; reflexivity.
Qed.

Lemma Find_found_instance_witness :
  (None : option error) = None
  /\ is_Some (ID Examples.foundLB)
  /\ is_Some (ID Examples.foundLB) /\ is_Some (Name Examples.foundLB)
  /\ is_Some (Subnet Examples.foundLB)
  /\ Lifecycle Examples.foundLB = Lifecycle Examples.foundLB
  /\ Listener Examples.foundLB = None /\ VipSubnet Examples.foundLB = None
  /\ PortID Examples.foundLB = None.
Proof.
  apply (Find_found_instance Examples.foundLB Examples.foundLB
           {| fi.Cloud := Examples.cloud1 |} [] None).
  reflexivity.
Defined.


(** X5.  Of the task it is called on, [Find] reads the identifier and the
    lifecycle only: the desired name, subnet and the other fields have no part
    in the lookup or in its result. *)
Theorem Find_reads_ID_and_Lifecycle (s s' : LB)
    (context : fi.Context openstack.OpenstackCloud) (log : Log) :
  ID s = ID s' -> Lifecycle s = Lifecycle s' ->
  Find s context log = Find s' context log.
Proof.
  intros Hid Hlife. unfold Find. rewrite Hid, Hlife. reflexivity.
Qed.

Lemma Find_reads_ID_and_Lifecycle_witness :
  Find Examples.foundLB {| fi.Cloud := Examples.cloud1 |} []
  = Find {| ID := Some "lb-1"; Name := Some "renamed"; Listener := None;
            Subnet := Some "public"; VipSubnet := Some "subnet-9";
            Lifecycle := Some fi.LifecycleSync; PortID := Some "port-9" |}
      {| fi.Cloud := Examples.cloud1 |} [].
Proof.
  apply (Find_reads_ID_and_Lifecycle Examples.foundLB
           {| ID := Some "lb-1"; Name := Some "renamed"; Listener := None;
              Subnet := Some "public"; VipSubnet := Some "subnet-9";
              Lifecycle := Some fi.LifecycleSync; PortID := Some "port-9" |}
           {| fi.Cloud := Examples.cloud1 |} []);
    reflexivity.
Defined.

End TaskOutcomes.

(** ** [LB.RenderOpenstack] *)

Section RenderOutcomes.
Import openstacktasks.

(** What [RenderOpenstack] returns for an absent actual state and what it adds
    to the log, by cases on the answers of the provider. *)
Lemma RenderOpenstack_cases (t : openstack.OpenstackAPITarget) (ev : LB)
    (changes : option LB) (log : Log) :
  let name := fi.StringValue (Subnet ev) in
  let list := {| subnets.lo_Name := name |} in
  let listed := openstack.ListSubnets (openstack.Cloud t) log list in
  let create sub :=
    {| loadbalancers.co_Name := fi.StringValue (Name ev);
       loadbalancers.co_VipSubnetID := subnets.ID sub |} in
  let created sub :=
    openstack.CreateLB (openstack.Cloud t) (log ++ [CallListSubnets list]) (create sub) in
  let run := RenderOpenstack t None (Some ev) changes log in
  (exists err,
     listed = inr err
     /\ run = (Returned
                 (Some (Errorf "Failed to retrieve subnet `%s` in loadbalancer creation: %v"
                          (ArgString name (ArgErr err NoArgs))), Some ev),
               log ++ [CallListSubnets list]))
  \/ (exists subs,
        listed = inl subs /\ length subs <> 1
        /\ run = (Returned
                    (Some (Errorf "Unexpected desired subnets for `%s`.  Expected 1, got %d"
                             (ArgString name (ArgInt (Z.of_nat (length subs)) NoArgs))),
                     Some ev),
                  log ++ [CallListSubnets list]))
  \/ (exists sub err,
        listed = inl [sub] /\ created sub = inr err
        /\ run = (Returned (Some (Errorf "error creating LB: %v" (ArgErr err NoArgs)), Some ev),
                  log ++ [CallListSubnets list; CallCreateLB (create sub)]))
  \/ (exists sub lb,
        listed = inl [sub] /\ created sub = inl lb
        /\ run = (Returned
                    (None,
                     Some (set_VipSubnet (Some (loadbalancers.VipSubnetID lb))
                             (set_PortID (Some (loadbalancers.VipPortID lb))
                                (set_ID (Some (loadbalancers.ID lb)) ev)))),
                  log ++ [CallListSubnets list; CallCreateLB (create sub)])).
Proof.
  intros name list listed create created run.
  subst run listed created. unfold RenderOpenstack. run_M. fold name. fold list.
  destruct (openstack.ListSubnets (openstack.Cloud t) log list)
    as [[|sub [|sub' subs]]|err].
  - right; left. exists []. repeat split. simpl; lia.
  - fold (create sub).
    destruct (openstack.CreateLB _ _ (create sub)) as [lb|err] eqn:Hcreate;
      rewrite <- app_assoc.
    + right; right; right. exists sub, lb. repeat split. exact Hcreate.
    + right; right; left. exists sub, err. repeat split. exact Hcreate.
  - right; left. exists (sub :: sub' :: subs). repeat split. simpl; lia.
  - left. exists err. repeat split.
Qed.


(** X7.  The two ways the listing of subnets stops a creation.  If the
    listing fails, the error wraps the error of the provider and names the
    subnet asked for.  If the listing holds no subnet or several, the error
    carries the name asked for and the number of subnets found.  In both cases
    the listing is the only request made. *)
Theorem RenderOpenstack_listing_errors (t : openstack.OpenstackAPITarget) (ev : LB)
    (changes : option LB) (log : Log) :
  let name := fi.StringValue (Subnet ev) in
  let list := {| subnets.lo_Name := name |} in
  (forall err,
     openstack.ListSubnets (openstack.Cloud t) log list = inr err ->
     RenderOpenstack t None (Some ev) changes log
       = (Returned
            (Some (Errorf "Failed to retrieve subnet `%s` in loadbalancer creation: %v"
                     (ArgString name (ArgErr err NoArgs))), Some ev),
          log ++ [CallListSubnets list]))
  /\ (forall subs,
        openstack.ListSubnets (openstack.Cloud t) log list = inl subs ->
        length subs <> 1 ->
        RenderOpenstack t None (Some ev) changes log
          = (Returned
               (Some (Errorf "Unexpected desired subnets for `%s`.  Expected 1, got %d"
                        (ArgString name (ArgInt (Z.of_nat (length subs)) NoArgs))),
                Some ev),
             log ++ [CallListSubnets list])).
Proof.
  intros name list. split.
  - intros err Hlist.
    destruct (RenderOpenstack_cases t ev changes log)
      as [(err' & Hl & H)|[(subs & Hl & _ & H)|[(sub & err' & Hl & _ & H)|(sub & lb & Hl & _ & H)]]];
      fold name list in Hl; rewrite Hlist in Hl; try discriminate Hl.
    injection Hl as <-. exact H.
  - intros subs Hlist Hlen.
    destruct (RenderOpenstack_cases t ev changes log)
      as [(err' & Hl & H)|[(subs' & Hl & _ & H)|[(sub & err' & Hl & _ & H)|(sub & lb & Hl & _ & H)]]];
      fold name list in Hl; rewrite Hlist in Hl; try discriminate Hl.
    + injection Hl as <-. exact H.
    + injection Hl as ->. exfalso. apply Hlen. reflexivity.
    + injection Hl as ->. exfalso. apply Hlen. reflexivity.
Qed.

Lemma RenderOpenstack_listing_errors_witness :
  RenderOpenstack {| openstack.Cloud := Examples.emptyCloud |} None (Some Examples.wantedLB)
    None []
  = (Returned
       (Some (Errorf "Unexpected desired subnets for `%s`.  Expected 1, got %d"
                (ArgString "private" (ArgInt 0 NoArgs))),
        Some Examples.wantedLB),
     [CallListSubnets {| subnets.lo_Name := "private" |}]).
Proof.
  apply (proj2 (RenderOpenstack_listing_errors {| openstack.Cloud := Examples.emptyCloud |}
                  Examples.wantedLB None []) [] eq_refl).
  simpl. lia.
Defined.


(** X9.  Creation and lookup agree on the immutable fields.  After
    [RenderOpenstack] has created the load balancer of a named task, if the
    provider answers the lookup of the new identifier with a load balancer of
    that identifier and of the name that was asked for, and the lookup of its
    subnet succeeds, then [Find] on the task returns an instance with the same
    [ID] and the same [Name] as the task. *)
Theorem Find_after_create (t : openstack.OpenstackAPITarget)
    (context : fi.Context openstack.OpenstackCloud)
    (ev ev' : LB) (changes : option LB) (log log' : Log)
    (lb : loadbalancers.LoadBalancer) (sub : subnets.Subnet) :
  is_Some (Name ev) ->
  RenderOpenstack t None (Some ev) changes log = (Returned (None, Some ev'), log') ->
  gophercloud.loadbalancers_Get (openstack.LoadBalancerClient (fi.Cloud context)) log'
    (fi.StringValue (ID ev')) = inl lb ->
  loadbalancers.ID lb = fi.StringValue (ID ev') ->
  loadbalancers.Name lb = fi.StringValue (Name ev) ->
  gophercloud.subnets_Get (openstack.NetworkingClient (fi.Cloud context))
    (log' ++ [CallLoadBalancersGet (fi.StringValue (ID ev'))])
    (loadbalancers.VipSubnetID lb) = inl sub ->
  exists av,
    fst (Find ev' context log') = Returned (Some av, None)
    /\ ID av = ID ev' /\ Name av = Name ev'.
Proof.
  intros [name Hname] Hrender Hget HlbID HlbName Hsub.
  destruct (RenderOpenstack_cases t ev changes log)
    as [(err & _ & H)|[(subs & _ & _ & H)|[(s & err & _ & _ & H)|(s & lb0 & _ & _ & H)]]];
    rewrite H in Hrender; try discriminate Hrender.
  injection Hrender as <- <-.
  simpl in *. unfold Find, NewLBTaskFromCloud. simpl. run_M.
  rewrite Hget, Hsub. simpl. eexists. split; [reflexivity|]. simpl.
  rewrite HlbID, HlbName, Hname. split; reflexivity.
Qed.

Lemma Find_after_create_witness :
  exists av,
    fst (Find (set_VipSubnet (Some "subnet-1")
                 (set_PortID (Some "port-1") (set_ID (Some "lb-1") Examples.wantedLB)))
           {| fi.Cloud := Examples.cloud1 |}
           [CallListSubnets {| subnets.lo_Name := "private" |};
            CallCreateLB {| loadbalancers.co_Name := "api";
                            loadbalancers.co_VipSubnetID := "subnet-1" |}])
    = Returned (Some av, None)
    /\ ID av = Some "lb-1" /\ Name av = Some "api".
Proof.
  exact (Find_after_create {| openstack.Cloud := Examples.cloud1 |}
           {| fi.Cloud := Examples.cloud1 |}
           Examples.wantedLB
           (set_VipSubnet (Some "subnet-1")
              (set_PortID (Some "port-1") (set_ID (Some "lb-1") Examples.wantedLB)))
           None []
           [CallListSubnets {| subnets.lo_Name := "private" |};
            CallCreateLB {| loadbalancers.co_Name := "api";
                            loadbalancers.co_VipSubnetID := "subnet-1" |}]
           Examples.lb1 Examples.subnet1
           (ex_intro _ "api" eq_refl) eq_refl eq_refl eq_refl eq_refl eq_refl).
Defined.

(** X10.  What [CheckChanges] lets through, [RenderOpenstack] creates under
    the name of the task: when [CheckChanges] accepts an expected task with the
    actual state absent, any create call that [RenderOpenstack] issues for that
    task carries the name the task has, never the empty string that stands for
    a missing name. *)
Theorem checked_create_carries_name (t : openstack.OpenstackAPITarget) (ev : LB)
    (changes changes' : option LB) (log log' : Log) (opt : loadbalancers.CreateOpts) :
  fst (CheckChanges None (Some ev) changes log') = Returned None ->
  CallCreateLB opt ∈ calls_of (RenderOpenstack t None (Some ev) changes') log ->
  Name ev = Some (loadbalancers.co_Name opt).
Proof.
  unfold CheckChanges. intros Hcheck Hcall.
  destruct (Name ev) as [name|] eqn:Hname; [|discriminate Hcheck].
  unfold calls_of in Hcall.
  destruct (RenderOpenstack_cases t ev changes' log)
    as [(err & _ & H)|[(subs & _ & _ & H)|[(s & err & _ & _ & H)|(s & lb & _ & _ & H)]]];
    rewrite H in Hcall; simpl in Hcall; rewrite drop_app_length in Hcall.
  - apply list_elem_of_singleton in Hcall. discriminate Hcall.
  - apply list_elem_of_singleton in Hcall. discriminate Hcall.
  - apply elem_of_cons in Hcall. destruct Hcall as [Hcall|Hcall]; [discriminate Hcall|].
    apply list_elem_of_singleton in Hcall. injection Hcall as ->.
    simpl. rewrite Hname. reflexivity.
  - apply elem_of_cons in Hcall. destruct Hcall as [Hcall|Hcall]; [discriminate Hcall|].
    apply list_elem_of_singleton in Hcall. injection Hcall as ->.
    simpl. rewrite Hname. reflexivity.
Qed.

Lemma checked_create_carries_name_witness :
  Name Examples.wantedLB = Some "api".
Proof.
  apply (checked_create_carries_name {| openstack.Cloud := Examples.cloud1 |}
           Examples.wantedLB None None [] []
           {| loadbalancers.co_Name := "api"; loadbalancers.co_VipSubnetID := "subnet-1" |}).
  - reflexivity.
  - vm_compute. apply list_elem_of_further, list_elem_of_here.
Defined.

End RenderOutcomes.

(** ** [LB.GetDependencies] *)

Section DependencyLists.
Import openstacktasks.
Context {SubnetTask ServerGroupTask InstanceTask OtherTask : Type}.
Local Abbreviation Task := (Task SubnetTask ServerGroupTask InstanceTask OtherTask).

(** The tasks of the accepted dynamic types among [ts], in order. *)
Local Abbreviation selected ts := (filter (fun t : Task => isDependencyKind t = true) ts).

Lemma GetDependencies_step_app (deps : list Task) (task : Task) :
  GetDependencies_step deps task = deps ++ selected [task].
Proof.
  unfold GetDependencies_step.
  destruct task; simpl; rewrite ?app_nil_r; reflexivity.
Qed.

Lemma GetDependencies_loop_app (entries : list (string * Task)) (deps : list Task) :
  foldl (fun deps kv => GetDependencies_step deps (snd kv)) deps entries
  = deps ++ selected (entries.*2).
Proof.
  revert deps. induction entries as [|[name task] entries IH]; intros deps; simpl.
  - rewrite app_nil_r. reflexivity.
  - rewrite IH, GetDependencies_step_app, <- app_assoc.
    f_equal. symmetry. apply (filter_app _ [task] (entries.*2)).
Qed.

(** X11.  [GetDependencies] returns the tasks of the accepted dynamic types
    in the order in which the map is visited, one entry of the result for each
    entry of the map: a task held under two names is listed twice, no task is
    listed that the map does not hold, and the result is never longer than the
    map is large; for the empty map it is empty. *)
Theorem GetDependencies_selects_in_order (e : LB) (tasks : gmap string Task)
    (entries : list (string * Task)) :
  GetDependencies_range e entries = selected (entries.*2)
  /\ GetDependencies e tasks = selected ((map_to_list tasks).*2)
  /\ length (GetDependencies e tasks) <= size tasks
  /\ GetDependencies e (∅ : gmap string Task) = [].
Proof.
  assert (Hrange : forall l, GetDependencies_range e l = selected (l.*2)).
  { intros l. unfold GetDependencies_range. rewrite GetDependencies_loop_app. reflexivity. }
  split; [apply Hrange|]. split; [apply Hrange|]. split.
  - unfold GetDependencies. rewrite Hrange.
    etransitivity; [apply length_filter|].
    rewrite length_fmap, length_map_to_list. reflexivity.
  - unfold GetDependencies. rewrite map_to_list_empty. reflexivity.
Qed.

(** X12.  The order in which the range statement visits the map changes the
    order of the dependencies only: two visits of the same entries return the
    same tasks, each as many times. *)
Theorem GetDependencies_range_perm (e e' : LB) (entries entries' : list (string * Task)) :
  entries ≡ₚ entries' ->
  GetDependencies_range e entries ≡ₚ GetDependencies_range e' entries'.
Proof.
  intros Hperm. unfold GetDependencies_range.
  rewrite !GetDependencies_loop_app. simpl. rewrite Hperm. reflexivity.
Qed.

(** X13.  Registering a task under a name that the map does not hold yet
    adds that task to the dependencies when it is a subnet, a server group or
    an instance, and adds nothing otherwise; the dependencies there were stay. *)
Theorem GetDependencies_insert (e : LB) (tasks : gmap string Task) (name : string)
    (task : Task) :
  tasks !! name = None ->
  forall t : Task,
    t ∈ GetDependencies e (<[name := task]> tasks)
    <-> (t = task /\ isDependencyKind task = true) \/ t ∈ GetDependencies e tasks.
Proof.
  intros Hfresh t. unfold GetDependencies.
  rewrite (GetDependencies_range_elem e (<[name := task]> tasks) _ t (reflexivity _)).
  rewrite (GetDependencies_range_elem e tasks _ t (reflexivity _)).
  split.
  - intros [[name' Hlookup] Hkind].
    apply lookup_insert_Some in Hlookup.
    destruct Hlookup as [[<- <-]|[Hne Hlookup]].
    + left. split; [reflexivity|assumption].
    + right. split; [exists name'; assumption|assumption].
  - intros [[-> Hkind]|[[name' Hlookup] Hkind]].
    + split; [|assumption]. exists name. apply lookup_insert_eq.
    + split; [|assumption]. exists name'.
      rewrite lookup_insert_ne; [assumption|].
      intros <-. rewrite Hfresh in Hlookup. discriminate Hlookup.
Qed.

End DependencyLists.

Lemma GetDependencies_range_perm_witness :
  openstacktasks.GetDependencies_range openstacktasks.zeroLB
    [("subnet/private", openstacktasks.TSubnet "private");
     ("lb/api", openstacktasks.TLB Examples.wantedLB);
     ("instance/master", openstacktasks.TInstance "master" : openstacktasks.Task string string string string)]
  ≡ₚ openstacktasks.GetDependencies_range Examples.foundLB
       [("instance/master", openstacktasks.TInstance "master");
        ("subnet/private", openstacktasks.TSubnet "private");
        ("lb/api", openstacktasks.TLB Examples.wantedLB)].
Proof.
  apply (GetDependencies_range_perm openstacktasks.zeroLB Examples.foundLB).
  etransitivity; [apply Permutation_skip, Permutation_swap|apply Permutation_swap].
Defined.

Lemma GetDependencies_insert_witness :
  (openstacktasks.TSubnet "private" : openstacktasks.Task string string string string)
  ∈ openstacktasks.GetDependencies openstacktasks.zeroLB
      (<["subnet/private" := openstacktasks.TSubnet "private"]> ∅).
Proof.
  apply (GetDependencies_insert openstacktasks.zeroLB ∅ "subnet/private"
           (openstacktasks.TSubnet "private") (lookup_empty _)).
  left. split; reflexivity.
Defined.

(** ** [OpenstackAPITarget.GetIDForServerGroupName] *)

Section ServerGroupEdges.
Import openstack.

(** X14.  Called with a [nil] name, [GetIDForServerGroupName] lists the
    server groups and then panics, whatever the listing holds. *)
Theorem GetIDForServerGroupName_nil_name (t : OpenstackAPITarget) (log : Log) :
  GetIDForServerGroupName t None log = (Panicked, log ++ [CallListServerGroups]).
Proof.
  unfold GetIDForServerGroupName. run_M.
  destruct (ListServerGroups (Cloud t) log) as [[|sg groups] err]; reflexivity.
Qed.

(** X15.  [GetIDForServerGroupName] returns an identifier exactly when some
    listed server group has the name asked for, and the identifier it returns
    is that of a listed group of that name; an identifier never comes with an
    error. *)
Theorem GetIDForServerGroupName_found_iff (t : OpenstackAPITarget) (name : string)
    (log : Log) :
  let groups := fst (ListServerGroups (Cloud t) log) in
  ((exists id err, fst (GetIDForServerGroupName t (Some name) log) = Returned (Some id, err))
   <-> exists sg, sg ∈ groups /\ servergroups.Name sg = name)
  /\ (forall id err,
        fst (GetIDForServerGroupName t (Some name) log) = Returned (Some id, err) ->
        err = None
        /\ exists sg, sg ∈ groups /\ servergroups.Name sg = name /\ servergroups.ID sg = id).
Proof.
  intros groups. subst groups. unfold GetIDForServerGroupName. run_M.
  destruct (ListServerGroups (Cloud t) log) as [groups err0]; simpl.
  destruct (GetIDForServerGroupName_range_spec name groups (log ++ [CallListServerGroups]))
    as (r & Hrun & Hr).
  rewrite Hrun. simpl.
  destruct Hr as [(before & sg & after & -> & Hbefore & Hsg & ->)|[Hnone ->]].
  - split.
    + split; [|intros _; eexists _, _; reflexivity].
      intros _. exists sg. split; [|assumption].
      apply elem_of_app. right. left.
    + intros id err [= <- <-]. split; [reflexivity|].
      exists sg. split; [|split; [assumption|reflexivity]].
      apply elem_of_app. right. left.
  - split.
    + split; [intros (id & err & [=])|].
      intros (sg & Hin & Hsg). exfalso.
      rewrite Forall_forall in Hnone. exact (Hnone sg Hin Hsg).
    + intros id err [=].
Qed.

End ServerGroupEdges.

Lemma GetIDForServerGroupName_found_iff_witness :
  (None : option error) = None
  /\ exists sg,
       sg ∈ fst (openstack.ListServerGroups Examples.cloud1 [])
       /\ servergroups.Name sg = "nodes" /\ servergroups.ID sg = "sg-2".
Proof.
  apply (proj2 (GetIDForServerGroupName_found_iff {| openstack.Cloud := Examples.cloud1 |}
                  "nodes" []) "sg-2" None).
  reflexivity.
Defined.

(** ** The retry-wrapped volume operations *)

Section VolumeAttempts.
Import openstack.
Variable c : openstackCloud.


Variable R :
  forall St : Type, wait.Backoff -> (St -> attempt * St) -> St -> attempt * St.

(** X17.  Each of the four operations returns no error exactly when the
    retry executor reports done and no error; the value and the log it returns
    are those the executor hands back.  For [SetVolumeTags] this is past its
    two guards. *)
Theorem retry_wrapped_success_iff :
  (forall opt log done err log' volumes,
     R _ readBackoff (ListVolumes_op c opt) (log, []) = ((done, err), (log', volumes)) ->
     exists e, ListVolumes R c opt log = (Returned (volumes, e), log')
               /\ (e = None <-> done = true /\ err = None))
  /\ (forall opt log done err log' volume,
        R _ writeBackoff (CreateVolume_op c opt) (log, None) = ((done, err), (log', volume)) ->
        exists e, CreateVolume R c opt log = (Returned (volume, e), log')
                  /\ (e = None <-> done = true /\ err = None))
  /\ (forall serverID opts log done err log' attachment,
        R _ writeBackoff (AttachVolume_op c serverID opts) (log, None)
          = ((done, err), (log', attachment)) ->
        exists e, AttachVolume R c serverID opts log = (Returned (attachment, e), log')
                  /\ (e = None <-> done = true /\ err = None))
  /\ (forall id tags log done err log',
        size tags <> 0 -> id <> "" ->
        R _ writeBackoff (SetVolumeTags_op c id {| cinder.uo_Metadata := tags |}) log
          = ((done, err), log') ->
        exists e, SetVolumeTags R c id tags log = (Returned e, log')
                  /\ (e = None <-> done = true /\ err = None)).
Proof.
  repeat apply conj.
  - intros opt log done err log' volumes HR. unfold ListVolumes. rewrite HR.
    destruct err as [e|]; [|destruct done]; eexists; (split; [reflexivity|]);
      split; try discriminate; try (intros [? ?]; discriminate); auto.
  - intros opt log done err log' volume HR. unfold CreateVolume. rewrite HR.
    destruct err as [e|]; [|destruct done]; eexists; (split; [reflexivity|]);
      split; try discriminate; try (intros [? ?]; discriminate); auto.
  - intros serverID opts log done err log' attachment HR. unfold AttachVolume. rewrite HR.
    destruct err as [e|]; destruct done; simpl; eexists; (split; [reflexivity|]);
      split; try discriminate; try (intros [? ?]; discriminate); auto.
  - intros id tags log done err log' Htags Hid HR. unfold SetVolumeTags.
    rewrite !decide_False by assumption. rewrite HR.
    destruct err as [e|]; [|destruct done]; eexists; (split; [reflexivity|]);
      split; try discriminate; try (intros [? ?]; discriminate); auto.
Qed.

End VolumeAttempts.

Section VolumePolicies.
Import openstack.

(** X18.  One policy for each class of operation.  [ListVolumes] consults
    the retry executor under [readBackoff] only: two executors that agree
    under that policy give the same listing.  [CreateVolume], [AttachVolume]
    and [SetVolumeTags] consult it under [writeBackoff] only. *)
Theorem volume_policy_classes
    (R R' : forall St : Type, wait.Backoff -> (St -> attempt * St) -> St -> attempt * St) :
  ((forall St op st, R St readBackoff op st = R' St readBackoff op st) ->
   forall c opt log, ListVolumes R c opt log = ListVolumes R' c opt log)
  /\ ((forall St op st, R St writeBackoff op st = R' St writeBackoff op st) ->
      forall c,
        (forall opt log, CreateVolume R c opt log = CreateVolume R' c opt log)
        /\ (forall serverID opts log,
              AttachVolume R c serverID opts log = AttachVolume R' c serverID opts log)
        /\ (forall id tags log, SetVolumeTags R c id tags log = SetVolumeTags R' c id tags log)).
Proof.
  split.
  - intros H c opt log. apply ListVolumes_under_readBackoff. exact H.
  - intros H c. repeat split; intros.
    + apply CreateVolume_under_writeBackoff. exact H.
    + apply AttachVolume_under_writeBackoff. exact H.
    + apply SetVolumeTags_under_writeBackoff. exact H.
Qed.

Lemma volume_policy_classes_witness :
  let opt := {| cinder.lo_Name := "etcd-main"; cinder.lo_Status := "available" |} in
  ListVolumes Examples.singleAttempt MoreExamples.openstackCloud1 opt []
  = ListVolumes MoreExamples.fourStepsOnly MoreExamples.openstackCloud1 opt []
  /\ SetVolumeTags Examples.singleAttempt MoreExamples.openstackCloud1 "vol-1"
       {[ "KubernetesCluster" := "test.k8s.local" ]} []
     = SetVolumeTags MoreExamples.fiveStepsOnly MoreExamples.openstackCloud1 "vol-1"
         {[ "KubernetesCluster" := "test.k8s.local" ]} [].
Proof.
  intros opt. split.
  - apply (proj1 (volume_policy_classes Examples.singleAttempt MoreExamples.fourStepsOnly)).
    reflexivity.
  - apply (proj2 (volume_policy_classes Examples.singleAttempt MoreExamples.fiveStepsOnly)).
    reflexivity.
Defined.

Lemma retry_wrapped_success_iff_witness :
  let opt := {| cinder.lo_Name := "etcd-main"; cinder.lo_Status := "available" |} in
  exists e,
    ListVolumes Examples.singleAttempt MoreExamples.openstackCloud1 opt []
      = (Returned ([], e), [CallVolumesList opt])
    /\ (e = None <-> true = true /\ (None : option error) = None).
Proof.
  intros opt.
  apply (proj1 (retry_wrapped_success_iff MoreExamples.openstackCloud1 Examples.singleAttempt)
           opt [] true None [CallVolumesList opt] []).
  reflexivity.
Defined.

End VolumePolicies.

(** ** [openstackCloud.GetApiIngressStatus] *)

Section IngressProperties.
Import openstack ingress.

Variable ListLBs :
  openstackCloud -> list IngressCall -> ListOpts -> list loadbalancers.LoadBalancer + error.
Variable ListFloatingIPs :
  openstackCloud -> list IngressCall -> list floatingips.FloatingIP + error.

Local Abbreviation status fip := {| kops.Hostname := ""; kops.IP := floatingips.IP fip |}.

Lemma GetApiIngressStatus_fips_app (lb : loadbalancers.LoadBalancer)
    (fips : list floatingips.FloatingIP) (ingresses : list kops.ApiIngressStatus) :
  GetApiIngressStatus_fips lb fips ingresses
  = ingresses
    ++ ((fun fip => status fip)
          <$> filter (fun fip => floatingips.FixedIP fip = loadbalancers.VipAddress lb) fips).
Proof.
  unfold GetApiIngressStatus_fips.
  revert ingresses. induction fips as [|fip fips IH]; intros ingresses; simpl.
  - rewrite app_nil_r. reflexivity.
  - rewrite IH. rewrite filter_cons. case_decide.
    + rewrite <- app_assoc. reflexivity.
    + reflexivity.
Qed.

Lemma GetApiIngressStatus_lbs_app (lbList : list loadbalancers.LoadBalancer)
    (fips : list floatingips.FloatingIP) (ingresses : list kops.ApiIngressStatus) :
  GetApiIngressStatus_lbs lbList fips ingresses = ingresses ++ ingressesOf lbList fips.
Proof.
  unfold GetApiIngressStatus_lbs, ingressesOf.
  revert ingresses. induction lbList as [|lb lbList IH]; intros ingresses; simpl.
  - rewrite app_nil_r. reflexivity.
  - rewrite IH, GetApiIngressStatus_fips_app, <- app_assoc. reflexivity.
Qed.

Lemma elem_of_ingressesOf (lbList : list loadbalancers.LoadBalancer)
    (fips : list floatingips.FloatingIP) (s : kops.ApiIngressStatus) :
  s ∈ ingressesOf lbList fips
  <-> exists lb fip,
        lb ∈ lbList /\ fip ∈ fips
        /\ floatingips.FixedIP fip = loadbalancers.VipAddress lb
        /\ s = status fip.
Proof.
  unfold ingressesOf. rewrite list_elem_of_bind. split.
  - intros (lb & Hs & Hlb). apply list_elem_of_fmap in Hs.
    destruct Hs as (fip & -> & Hfip). apply list_elem_of_filter in Hfip.
    destruct Hfip as [Hmatch Hfip]. exists lb, fip. auto.
  - intros (lb & fip & Hlb & Hfip & Hmatch & ->). exists lb. split; [|assumption].
    apply list_elem_of_fmap. exists fip. split; [reflexivity|].
    apply list_elem_of_filter. auto.
Qed.

(** X19.  For a cluster with a master public name, when both listings
    succeed, [GetApiIngressStatus] lists the load balancers of that name, then
    the floating IPs, and returns, with no error and no host name, the
    addresses of the floating IPs whose fixed address is the VIP address of a
    listed load balancer: load balancer by load balancer, in the order of the
    listings, once for every pair that matches. *)
Theorem GetApiIngressStatus_addresses (c : openstackCloud) (cluster : kops.Cluster)
    (log : list IngressCall) (lbList : list loadbalancers.LoadBalancer)
    (fips : list floatingips.FloatingIP) :
  let opt := {| lo_Name := kops.MasterPublicName (kops.Spec cluster) |} in
  kops.MasterPublicName (kops.Spec cluster) <> "" ->
  ListLBs c log opt = inl lbList ->
  ListFloatingIPs c (log ++ [CallListLBs opt]) = inl fips ->
  GetApiIngressStatus ListLBs ListFloatingIPs c (Some cluster) log
    = (Returned (ingressesOf lbList fips, None), log ++ [CallListLBs opt; CallListFloatingIPs])
  /\ (forall s,
        s ∈ ingressesOf lbList fips
        <-> exists lb fip,
              lb ∈ lbList /\ fip ∈ fips
              /\ floatingips.FixedIP fip = loadbalancers.VipAddress lb
              /\ s = status fip)
  /\ length (ingressesOf lbList fips) <= length lbList * length fips.
Proof.
  intros opt Hname Hlbs Hfips. split; [|split].
  - unfold GetApiIngressStatus. rewrite decide_True by assumption.
    fold opt. rewrite Hlbs, Hfips, GetApiIngressStatus_lbs_app, <- app_assoc.
    reflexivity.
  - apply elem_of_ingressesOf.
  - unfold ingressesOf. clear. induction lbList as [|lb lbs IH]; [simpl; lia|].
    rewrite bind_cons, length_app, length_fmap.
    pose proof (length_filter
                  (fun fip => floatingips.FixedIP fip = loadbalancers.VipAddress lb) fips).
    simpl. lia.
Qed.

(** X20.  The ways [GetApiIngressStatus] returns no address.  For a cluster
    without master public name it makes no request and returns no error.  If
    the listing of load balancers fails, it returns the error wrapped and does
    not list the floating IPs; if the listing of floating IPs fails, it returns
    that error wrapped.  An error never comes with an address.  With a [nil]
    cluster it panics before any request. *)
Theorem GetApiIngressStatus_no_address (c : openstackCloud) (cluster : kops.Cluster)
    (log : list IngressCall) :
  let opt := {| lo_Name := kops.MasterPublicName (kops.Spec cluster) |} in
  let run := GetApiIngressStatus ListLBs ListFloatingIPs c (Some cluster) log in
  (kops.MasterPublicName (kops.Spec cluster) = "" -> run = (Returned ([], None), log))
  /\ (forall err,
        kops.MasterPublicName (kops.Spec cluster) <> "" ->
        ListLBs c log opt = inr err ->
        run = (Returned
                 ([], Some (Errorf "GetApiIngressStatus: Failed to list openstack loadbalancers: %v"
                              (ArgErr err NoArgs))),
               log ++ [CallListLBs opt]))
  /\ (forall lbList err,
        kops.MasterPublicName (kops.Spec cluster) <> "" ->
        ListLBs c log opt = inl lbList ->
        ListFloatingIPs c (log ++ [CallListLBs opt]) = inr err ->
        run = (Returned
                 ([], Some (Errorf "GetApiIngressStatus: Failed to list floating IP's: %v"
                              (ArgErr err NoArgs))),
               log ++ [CallListLBs opt; CallListFloatingIPs]))
  /\ (forall ingresses err, fst run = Returned (ingresses, Some err) -> ingresses = [])
  /\ GetApiIngressStatus ListLBs ListFloatingIPs c None log = (Panicked, log).
Proof.
  intros opt run. subst run. unfold GetApiIngressStatus. fold opt.
  repeat apply conj.
  - intros Hname. rewrite decide_False; [reflexivity|]. intros H; apply H, Hname.
  - intros err Hname Hlbs. rewrite decide_True by assumption. rewrite Hlbs. reflexivity.
  - intros lbList err Hname Hlbs Hfips. rewrite decide_True by assumption.
    rewrite Hlbs, Hfips, <- app_assoc. reflexivity.
  - intros ingresses err. case_decide; [|intros [=]].
    destruct (ListLBs c log opt) as [lbList|e]; [|intros [= <- _]; reflexivity].
    destruct (ListFloatingIPs c _) as [fips|e]; [intros [=]|intros [= <- _]; reflexivity].
  - reflexivity.
Qed.

End IngressProperties.

Lemma GetApiIngressStatus_addresses_witness :
  ingress.GetApiIngressStatus MoreExamples.listLBs MoreExamples.listFloatingIPs
    MoreExamples.openstackCloud1 (Some MoreExamples.testCluster) []
  = (Returned ([ {| kops.Hostname := ""; kops.IP := "203.0.113.7" |} ], None),
     [ingress.CallListLBs {| ingress.lo_Name := "api.test.k8s.local" |};
      ingress.CallListFloatingIPs]).
Proof.
  apply (GetApiIngressStatus_addresses MoreExamples.listLBs MoreExamples.listFloatingIPs
           MoreExamples.openstackCloud1 MoreExamples.testCluster []
           [MoreExamples.apiLB]
           [MoreExamples.otherFloatingIP; MoreExamples.apiFloatingIP]).
  - discriminate.
  - reflexivity.
  - reflexivity.
Defined.

Lemma GetApiIngressStatus_no_address_witness :
  ingress.GetApiIngressStatus MoreExamples.listLBsFails MoreExamples.listFloatingIPs
    MoreExamples.openstackCloud1 (Some MoreExamples.testCluster) []
  = (Returned
       ([], Some (Errorf "GetApiIngressStatus: Failed to list openstack loadbalancers: %v"
                    (ArgErr (ProviderError 503 "unavailable") NoArgs))),
     [ingress.CallListLBs {| ingress.lo_Name := "api.test.k8s.local" |}]).
Proof.
  apply (proj1 (proj2 (GetApiIngressStatus_no_address MoreExamples.listLBsFails
                         MoreExamples.listFloatingIPs MoreExamples.openstackCloud1
                         MoreExamples.testCluster []))
           (ProviderError 503 "unavailable")).
  - discriminate.
  - reflexivity.
Defined.
